(** * AviaConnector SDK: status taxonomy, envelope codec, connection manager
      and dispatch engine, embedded from [src/statusCodes.ts] and
      [src/server/AviaConnectorServer.ts]. *)

From Stdlib Require Import ZArith Lia Bool List Ascii String.
From Stdlib Require Import Decimal DecimalString DecimalPos.
From stdpp Require Import base option gmap strings.

Import ListNotations.
Local Open Scope string_scope.
Local Open Scope Z_scope.

(** ** JavaScript strings

    A JavaScript string is kept as the byte string of its UTF-8 encoding
    (lone surrogates encoded the same way, three bytes each), so an ASCII
    string is itself.  [code c] is the byte value of a character. *)

Definition code (c : ascii) : Z := Z.of_N (N_of_ascii c).

Definition is_digit (c : ascii) : bool := (48 <=? code c) && (code c <=? 57).

Definition digit_value (c : ascii) : Z := code c - 48.

(** ** Status taxonomy ([statusCodes.ts]) *)

Module StatusCodes.

Inductive StatusCodeCategory :=
  | SUCCESS        (* "2xx" *)
  | CLIENT_ERROR   (* "4xx" *)
  | SERVER_ERROR   (* "5xx" *)
  | SIMULATOR      (* "6xx" *)
  | CUSTOM.        (* "9xx" *)

Inductive StatusCode :=
  | OK | CREATED | ACCEPTED
  | BAD_REQUEST | UNAUTHORIZED | FORBIDDEN | NOT_FOUND | METHOD_NOT_ALLOWED
  | REQUEST_TIMEOUT | CONFLICT
  | INTERNAL_SERVER_ERROR | NOT_IMPLEMENTED | BAD_GATEWAY
  | SERVICE_UNAVAILABLE | GATEWAY_TIMEOUT
  | SIMULATOR_CONNECTED | SIMULATOR_DISCONNECTED | SIMULATOR_PAUSED
  | SIMULATOR_RESUMED | SIMULATOR_ERROR | SIMULATOR_INITIALIZING
  | SIMULATOR_READY
  | CUSTOM_900 | CUSTOM_901 | CUSTOM_902 | CUSTOM_903 | CUSTOM_904
  | CUSTOM_905 | CUSTOM_906 | CUSTOM_907 | CUSTOM_908 | CUSTOM_909.

(** The string each member of the enum stands for. *)
Definition StatusCode_value (c : StatusCode) : string :=
  match c with
  | OK => "200" | CREATED => "201" | ACCEPTED => "202"
  | BAD_REQUEST => "400" | UNAUTHORIZED => "401" | FORBIDDEN => "403"
  | NOT_FOUND => "404" | METHOD_NOT_ALLOWED => "405"
  | REQUEST_TIMEOUT => "408" | CONFLICT => "409"
  | INTERNAL_SERVER_ERROR => "500" | NOT_IMPLEMENTED => "501"
  | BAD_GATEWAY => "502" | SERVICE_UNAVAILABLE => "503"
  | GATEWAY_TIMEOUT => "504"
  | SIMULATOR_CONNECTED => "600" | SIMULATOR_DISCONNECTED => "601"
  | SIMULATOR_PAUSED => "602" | SIMULATOR_RESUMED => "603"
  | SIMULATOR_ERROR => "604" | SIMULATOR_INITIALIZING => "605"
  | SIMULATOR_READY => "606"
  | CUSTOM_900 => "900" | CUSTOM_901 => "901" | CUSTOM_902 => "902"
  | CUSTOM_903 => "903" | CUSTOM_904 => "904" | CUSTOM_905 => "905"
  | CUSTOM_906 => "906" | CUSTOM_907 => "907" | CUSTOM_908 => "908"
  | CUSTOM_909 => "909"
  end.

Definition StatusCode_members : list StatusCode :=
  [ OK; CREATED; ACCEPTED;
    BAD_REQUEST; UNAUTHORIZED; FORBIDDEN; NOT_FOUND; METHOD_NOT_ALLOWED;
    REQUEST_TIMEOUT; CONFLICT;
    INTERNAL_SERVER_ERROR; NOT_IMPLEMENTED; BAD_GATEWAY;
    SERVICE_UNAVAILABLE; GATEWAY_TIMEOUT;
    SIMULATOR_CONNECTED; SIMULATOR_DISCONNECTED; SIMULATOR_PAUSED;
    SIMULATOR_RESUMED; SIMULATOR_ERROR; SIMULATOR_INITIALIZING;
    SIMULATOR_READY;
    CUSTOM_900; CUSTOM_901; CUSTOM_902; CUSTOM_903; CUSTOM_904;
    CUSTOM_905; CUSTOM_906; CUSTOM_907; CUSTOM_908; CUSTOM_909 ].

(** [Object.values(StatusCode)]: the values of a string enum, in
    declaration order. *)
Definition Object_values_StatusCode : list string :=
  map StatusCode_value StatusCode_members.

(** [isValidStatusCode]: [Object.values(StatusCode).includes(code)];
    [includes] compares strings by value. *)
Definition isValidStatusCode (code : string) : bool :=
  existsb (String.eqb code) Object_values_StatusCode.

(** *** [parseInt(code, 10)]

    The result is either NaN or an integer.  The integer is kept exact: the
    number the runtime returns is its nearest double, and since rounding is
    monotone and leaves 200 .. 1000 fixed, every comparison made by
    [getStatusCodeCategory] has the same outcome on both. *)

Inductive IntOrNaN :=
  | NaN
  | Int (n : Z).

(** Leading white space and line terminators skipped by [parseInt]: TAB,
    LF, VT, FF, CR, SP as single bytes; U+00A0 as C2 A0; U+1680, U+2000 ..
    U+200A, U+2028, U+2029, U+202F, U+205F, U+3000 and U+FEFF as three
    bytes. *)
Definition ws1 (a : Z) : bool :=
  ((9 <=? a) && (a <=? 13)) || (a =? 32).

Definition ws2 (a b : Z) : bool := (a =? 194) && (b =? 160).

Definition ws3 (a b c : Z) : bool :=
  ((a =? 225) && (b =? 154) && (c =? 128))
  || ((a =? 226) && (b =? 128)
      && (((128 <=? c) && (c <=? 138)) || (c =? 168) || (c =? 169) || (c =? 175)))
  || ((a =? 226) && (b =? 129) && (c =? 159))
  || ((a =? 227) && (b =? 128) && (c =? 128))
  || ((a =? 239) && (b =? 187) && (c =? 191)).

Fixpoint trimStart (s : string) : string :=
  match s with
  | String a r1 =>
      if ws1 (code a) then trimStart r1
      else match r1 with
           | String b r2 =>
               if ws2 (code a) (code b) then trimStart r2
               else match r2 with
                    | String c r3 =>
                        if ws3 (code a) (code b) (code c) then trimStart r3
                        else s
                    | EmptyString => s
                    end
           | EmptyString => s
           end
  | EmptyString => s
  end.

(** The longest run of decimal digits at the head of [s], read left to
    right onto [acc]. *)
Fixpoint read_digits (acc : Z) (s : string) : Z :=
  match s with
  | String c r => if is_digit c then read_digits (10 * acc + digit_value c) r
                  else acc
  | EmptyString => acc
  end.

Definition starts_with_digit (s : string) : bool :=
  match s with
  | String c _ => is_digit c
  | EmptyString => false
  end.

Definition parse_unsigned (s : string) : IntOrNaN :=
  if starts_with_digit s then Int (read_digits 0 s) else NaN.

Definition negate (r : IntOrNaN) : IntOrNaN :=
  match r with
  | NaN => NaN
  | Int n => Int (- n)
  end.

(** [parseInt(s, 10)]: trim, take one optional sign, read the digits; no
    ["0x"] prefix is honoured because the radix is given as 10. *)
Definition parseInt (s : string) : IntOrNaN :=
  match trimStart s with
  | String "-" r => negate (parse_unsigned r)
  | String "+" r => parse_unsigned r
  | t => parse_unsigned t
  end.

Definition getStatusCodeCategory (code : string) : option StatusCodeCategory :=
  match parseInt code with
  | NaN => None
  | Int codeNum =>
      if (200 <=? codeNum) && (codeNum <? 300) then Some SUCCESS
      else if (400 <=? codeNum) && (codeNum <? 500) then Some CLIENT_ERROR
      else if (500 <=? codeNum) && (codeNum <? 600) then Some SERVER_ERROR
      else if (600 <=? codeNum) && (codeNum <? 700) then Some SIMULATOR
      else if (900 <=? codeNum) && (codeNum <? 1000) then Some CUSTOM
      else None
  end.

Definition isSuccessStatusCode (code : string) : bool :=
  match getStatusCodeCategory code with Some SUCCESS => true | _ => false end.

Definition isErrorStatusCode (code : string) : bool :=
  match getStatusCodeCategory code with
  | Some CLIENT_ERROR | Some SERVER_ERROR => true
  | _ => false
  end.

Definition isSimulatorStatusCode (code : string) : bool :=
  match getStatusCodeCategory code with Some SIMULATOR => true | _ => false end.

(** [StatusCodeDescription]: the object literal, one property per enum
    member, keyed by the member's string. *)
Definition StatusCodeDescription : list (string * string) :=
  [ (StatusCode_value OK, "Request successful");
    (StatusCode_value CREATED, "Resource created successfully");
    (StatusCode_value ACCEPTED, "Request accepted for processing");
    (StatusCode_value BAD_REQUEST, "Invalid request format or parameters");
    (StatusCode_value UNAUTHORIZED, "Authentication required");
    (StatusCode_value FORBIDDEN, "Access denied");
    (StatusCode_value NOT_FOUND, "Resource not found");
    (StatusCode_value METHOD_NOT_ALLOWED, "Method not allowed");
    (StatusCode_value REQUEST_TIMEOUT, "Request timeout");
    (StatusCode_value CONFLICT, "Request conflicts with current state");
    (StatusCode_value INTERNAL_SERVER_ERROR, "Internal server error");
    (StatusCode_value NOT_IMPLEMENTED, "Feature not implemented");
    (StatusCode_value BAD_GATEWAY, "Bad gateway");
    (StatusCode_value SERVICE_UNAVAILABLE, "Service temporarily unavailable");
    (StatusCode_value GATEWAY_TIMEOUT, "Gateway timeout");
    (StatusCode_value SIMULATOR_CONNECTED, "Simulator connected successfully");
    (StatusCode_value SIMULATOR_DISCONNECTED, "Simulator disconnected");
    (StatusCode_value SIMULATOR_PAUSED, "Simulator paused");
    (StatusCode_value SIMULATOR_RESUMED, "Simulator resumed");
    (StatusCode_value SIMULATOR_ERROR, "Simulator error occurred");
    (StatusCode_value SIMULATOR_INITIALIZING, "Simulator initializing");
    (StatusCode_value SIMULATOR_READY, "Simulator ready for operations");
    (StatusCode_value CUSTOM_900, "Custom status code 900");
    (StatusCode_value CUSTOM_901, "Custom status code 901");
    (StatusCode_value CUSTOM_902, "Custom status code 902");
    (StatusCode_value CUSTOM_903, "Custom status code 903");
    (StatusCode_value CUSTOM_904, "Custom status code 904");
    (StatusCode_value CUSTOM_905, "Custom status code 905");
    (StatusCode_value CUSTOM_906, "Custom status code 906");
    (StatusCode_value CUSTOM_907, "Custom status code 907");
    (StatusCode_value CUSTOM_908, "Custom status code 908");
    (StatusCode_value CUSTOM_909, "Custom status code 909") ].

(** [StatusCodeDescription[code]]: [None] stands for the [undefined] a
    missing key gives. *)
Fixpoint description_at (code : string) (table : list (string * string))
  : option string :=
  match table with
  | [] => None
  | (k, text) :: rest => if String.eqb code k then Some text
                         else description_at code rest
  end.

Definition getStatusCodeDescription (code : string) : option string :=
  if isValidStatusCode code then description_at code StatusCodeDescription
  else Some ("Unknown status code: " ++ code).

End StatusCodes.

(** ** JavaScript values

    The values that [JSON.parse] can produce, and [undefined].  A number is
    kept as the exact decimal [m * 10^e] of its literal; the double the
    runtime stores is the nearest one.  An object is the list of its own
    properties in insertion order (the runtime lists keys that look like
    array indices first; no property is looked up by position here). *)

Module JS.

#[local] Set Warnings "-register-all".

Inductive Value :=
  | JUndefined
  | JNull
  | JBool (b : bool)
  | JNumber (m e : Z)
  | JString (s : string)
  | JArray (items : list Value)
  | JObject (props : list (string * Value)).

(** The double nearest to [m * 10^e] is zero exactly when [m] is zero or
    the magnitude is at most [2^-1075], half the least subnormal. *)
Definition rounds_to_zero (m e : Z) : bool :=
  (m =? 0) || ((e <? 0) && (Z.abs m * 2 ^ 1075 <=? 10 ^ (- e))).

(** [ToBoolean]: what [!v] and [v && ...] test. *)
Definition truthy (v : Value) : bool :=
  match v with
  | JUndefined | JNull => false
  | JBool b => b
  | JNumber m e => negb (rounds_to_zero m e)
  | JString s => negb (String.eqb s EmptyString)
  | JArray _ | JObject _ => true
  end.

(** [v === undefined || v === null], the test made by [??] and [?.]. *)
Definition nullish (v : Value) : bool :=
  match v with
  | JUndefined | JNull => true
  | _ => false
  end.

(** [a ?? b]. *)
Definition coalesce (a b : Value) : Value := if nullish a then b else a.

Definition typeof_string (v : Value) : bool :=
  match v with
  | JString _ => true
  | _ => false
  end.

Fixpoint assoc (k : string) (props : list (string * Value)) : option Value :=
  match props with
  | [] => None
  | (k', v) :: rest => if String.eqb k k' then Some v else assoc k rest
  end.

(** Property assignment on an object under construction: an existing key
    keeps its place and takes the new value, a new key goes last. *)
Fixpoint assign (k : string) (v : Value) (props : list (string * Value))
  : list (string * Value) :=
  match props with
  | [] => [(k, v)]
  | (k', v') :: rest =>
      if String.eqb k k' then (k, v) :: rest else (k', v') :: assign k v rest
  end.

(** [v.k] for a value [v] that is neither [undefined] nor [null].  The
    program reads only the names [type], [data], [Aircraft], [message],
    [last_error], [simulator_connected], [simulator_loaded] and
    [simulator_name]; none of them is a property of an array, a string, a
    number or a boolean, nor inherited from [Object.prototype]. *)
Definition prop (v : Value) (k : string) : Value :=
  match v with
  | JObject props => default JUndefined (assoc k props)
  | _ => JUndefined
  end.

(** *** Errors and completions *)

Inductive ErrorObject :=
  | NewError (message : Value)   (* [new Error(message)] *)
  | SyntaxError                  (* raised by [JSON.parse] *)
  | TypeError                    (* property read on [undefined] or [null] *)
  | ForeignError (tag : string). (* an [Error] made by consumer code or the transport *)

(** What a [throw] carries: an instance of [Error], or any other value.
    Of a value that is not an [Error] the program reads nothing but
    [String(err)], so it is known by that string: [undefined] for
    [throw undefined], [42] for [throw 42] and for [throw "42"]. *)
Inductive Thrown :=
  | ThrowError (e : ErrorObject)
  | ThrowValue (as_string : string).

Inductive Completion (A : Type) :=
  | Normal (a : A)
  | Abrupt (t : Thrown).
Arguments Normal {A} a.
Arguments Abrupt {A} t.

#[global] Instance Completion_ret : MRet Completion := @Normal.
#[global] Instance Completion_bind : MBind Completion :=
  fun A B k c => match c with
                 | Normal a => k a
                 | Abrupt t => Abrupt t
                 end.

(** [try { body } catch { handler }] around code without side effects. *)
Definition catch {A} (body : Completion A) (handler : Thrown -> Completion A)
  : Completion A :=
  match body with
  | Normal a => Normal a
  | Abrupt t => handler t
  end.

(** [v === "..."] against a string literal. *)
Definition is_string (v : Value) (lit : string) : bool :=
  match v with
  | JString s => String.eqb s lit
  | _ => false
  end.

(** [v === true]. *)
Definition is_true (v : Value) : bool :=
  match v with
  | JBool true => true
  | _ => false
  end.

(** [v.k], raising on [undefined] and [null] as the runtime does. *)
Definition member (v : Value) (k : string) : Completion Value :=
  if nullish v then Abrupt (ThrowError TypeError) else Normal (prop v k).

(** [v?.k]. *)
Definition member_opt (v : Value) (k : string) : Value :=
  if nullish v then JUndefined else prop v k.

(** [err instanceof Error ? err : new Error(String(err))]; an error object
    is kept by the value its constructor was given. *)
Definition as_Error (t : Thrown) : ErrorObject :=
  match t with
  | ThrowError e => e
  | ThrowValue as_string => NewError (JString as_string)
  end.

End JS.

(** ** [JSON.parse] and [JSON.stringify] *)

Module JSON.
Import JS.

Definition chr (n : Z) : ascii := ascii_of_N (Z.to_N n).

Definition is_ws (c : ascii) : bool :=
  (code c =? 32) || (code c =? 9) || (code c =? 10) || (code c =? 13).

Fixpoint skip_ws (s : string) : string :=
  match s with
  | String c r => if is_ws c then skip_ws r else s
  | EmptyString => s
  end.

(** A run of digits read onto [acc]; [count] is how many were read. *)
Fixpoint digits_run (acc count : Z) (s : string) : Z * Z * string :=
  match s with
  | String c r =>
      if is_digit c then digits_run (10 * acc + digit_value c) (count + 1) r
      else (acc, count, s)
  | EmptyString => (acc, count, s)
  end.

(** Integer part: a single [0], or a run that starts with [1 .. 9]. *)
Definition int_part (s : string) : option (Z * string) :=
  match s with
  | String c r =>
      if code c =? 48 then Some (0, r)
      else if is_digit c then
        let '(m, _, rest) := digits_run 0 0 s in Some (m, rest)
      else None
  | EmptyString => None
  end.

(** Fraction: the digits extend the mantissa and lower the exponent. *)
Definition frac_part (m : Z) (s : string) : option (Z * Z * string) :=
  match s with
  | String "." r =>
      let '(m', n, rest) := digits_run m 0 r in
      if n =? 0 then None else Some (m', - n, rest)
  | _ => Some (m, 0, s)
  end.

Definition exp_digits (neg : bool) (s : string) : option (Z * string) :=
  let '(x, n, rest) := digits_run 0 0 s in
  if n =? 0 then None else Some (if neg then - x else x, rest).

Definition exp_part (s : string) : option (Z * string) :=
  match s with
  | String c r =>
      if (code c =? 101) || (code c =? 69) then
        match r with
        | String "-" r' => exp_digits true r'
        | String "+" r' => exp_digits false r'
        | _ => exp_digits false r
        end
      else Some (0, s)
  | EmptyString => Some (0, s)
  end.

Definition parse_number (s : string) : option (Value * string) :=
  let '(neg, s1) := match s with
                    | String "-" r => (true, r)
                    | _ => (false, s)
                    end in
  '(m, s2) ← int_part s1;
  '(m', e1, s3) ← frac_part m s2;
  '(e2, s4) ← exp_part s3;
  Some (JNumber (if neg then - m' else m') (e1 + e2), s4).

(** UTF-8 bytes of a code point; a lone surrogate takes the three-byte
    form. *)
Definition utf8_encode (cp : Z) : string :=
  if cp <? 128 then String (chr cp) EmptyString
  else if cp <? 2048 then
    String (chr (192 + cp / 64)) (String (chr (128 + cp mod 64)) EmptyString)
  else if cp <? 65536 then
    String (chr (224 + cp / 4096))
      (String (chr (128 + (cp / 64) mod 64)) (String (chr (128 + cp mod 64)) EmptyString))
  else
    String (chr (240 + cp / 262144))
      (String (chr (128 + (cp / 4096) mod 64))
         (String (chr (128 + (cp / 64) mod 64)) (String (chr (128 + cp mod 64)) EmptyString))).

Definition hex_value (c : ascii) : option Z :=
  let x := code c in
  if (48 <=? x) && (x <=? 57) then Some (x - 48)
  else if (65 <=? x) && (x <=? 70) then Some (x - 55)
  else if (97 <=? x) && (x <=? 102) then Some (x - 87)
  else None.

Definition hex4 (a b c d : ascii) : option Z :=
  x1 ← hex_value a; x2 ← hex_value b; x3 ← hex_value c; x4 ← hex_value d;
  Some (((x1 * 16 + x2) * 16 + x3) * 16 + x4).

Definition simple_escape (c : ascii) : option ascii :=
  let x := code c in
  if x =? 34 then Some (chr 34)          (* quote *)
  else if x =? 92 then Some (chr 92)     (* backslash *)
  else if x =? 47 then Some (chr 47)     (* slash *)
  else if x =? 98 then Some (chr 8)      (* b: backspace *)
  else if x =? 102 then Some (chr 12)    (* f: form feed *)
  else if x =? 110 then Some (chr 10)    (* n: line feed *)
  else if x =? 114 then Some (chr 13)    (* r: carriage return *)
  else if x =? 116 then Some (chr 9)     (* t: tab *)
  else None.

Definition is_high_surrogate (u : Z) : bool := (55296 <=? u) && (u <=? 56319).
Definition is_low_surrogate (u : Z) : bool := (56320 <=? u) && (u <=? 57343).

(** The second half of a surrogate pair, when the text goes on with one. *)
Definition low_surrogate_escape (s : string) : option (Z * string) :=
  match s with
  | String b (String u (String h1 (String h2 (String h3 (String h4 rest))))) =>
      if (code b =? 92) && (code u =? 117) then
        match hex4 h1 h2 h3 h4 with
        | Some lo => if is_low_surrogate lo then Some (lo, rest) else None
        | None => None
        end
      else None
  | _ => None
  end.

Definition cons_to (c : ascii) (r : option (string * string)) :=
  '(body, rest) ← r; Some (String c body, rest).

Definition app_to (p : string) (r : option (string * string)) :=
  '(body, rest) ← r; Some (p ++ body, rest).

(** The characters of a string literal after its opening quote, up to the
    closing one. *)
Fixpoint string_body (s : string) : option (string * string) :=
  match s with
  | EmptyString => None
  | String c r =>
      if code c =? 34 then Some (EmptyString, r)
      else if code c =? 92 then
        match r with
        | String e r1 =>
            match simple_escape e with
            | Some ch => cons_to ch (string_body r1)
            | None =>
                if code e =? 117 then
                  match r1 with
                  | String h1 (String h2 (String h3 (String h4 r2))) =>
                      match hex4 h1 h2 h3 h4 with
                      | Some hi =>
                          match r2 with
                          | String b (String u (String l1 (String l2
                              (String l3 (String l4 r3))))) =>
                              match low_surrogate_escape r2 with
                              | Some (lo, _) =>
                                  if is_high_surrogate hi then
                                    app_to (utf8_encode
                                              (65536 + (hi - 55296) * 1024 + (lo - 56320)))
                                           (string_body r3)
                                  else app_to (utf8_encode hi) (string_body r2)
                              | None => app_to (utf8_encode hi) (string_body r2)
                              end
                          | _ => app_to (utf8_encode hi) (string_body r2)
                          end
                      | None => None
                      end
                  | _ => None
                  end
                else None
            end
        | EmptyString => None
        end
      else if code c <? 32 then None
      else cons_to c (string_body r)
  end.

Fixpoint strip_prefix (word s : string) : option string :=
  match word, s with
  | EmptyString, _ => Some s
  | String a w, String b r => if Ascii.eqb a b then strip_prefix w r else None
  | String _ _, EmptyString => None
  end.

Definition literal (word : string) (v : Value) (s : string)
  : option (Value * string) :=
  rest ← strip_prefix word s; Some (v, rest).

(** One value, then the text left over.  Every call spends one unit of
    [fuel]; between two nested calls at least one character is consumed on
    every other call, so [JSON_parse] below supplies enough. *)
Fixpoint parse_value (fuel : nat) (s : string) : option (Value * string) :=
  match fuel with
  | O => None
  | S fuel' =>
      match skip_ws s with
      | EmptyString => None
      | String c r as t =>
          if code c =? 34 then
            '(str, rest) ← string_body r; Some (JString str, rest)
          else if code c =? 91 then
            match skip_ws r with
            | String "]" rest => Some (JArray [], rest)
            | _ => '(items, rest) ← parse_elements fuel' r;
                   Some (JArray items, rest)
            end
          else if code c =? 123 then
            match skip_ws r with
            | String "}" rest => Some (JObject [], rest)
            | _ => '(props, rest) ← parse_members fuel' [] r;
                   Some (JObject props, rest)
            end
          else if code c =? 116 then literal "true" (JBool true) t
          else if code c =? 102 then literal "false" (JBool false) t
          else if code c =? 110 then literal "null" JNull t
          else parse_number t
      end
  end
with parse_elements (fuel : nat) (s : string) : option (list Value * string) :=
  match fuel with
  | O => None
  | S fuel' =>
      '(v, r) ← parse_value fuel' s;
      match skip_ws r with
      | String "," r' => '(vs, rest) ← parse_elements fuel' r';
                         Some (v :: vs, rest)
      | String "]" rest => Some ([v], rest)
      | _ => None
      end
  end
with parse_members (fuel : nat) (acc : list (string * Value)) (s : string)
  : option (list (string * Value) * string) :=
  match fuel with
  | O => None
  | S fuel' =>
      match skip_ws s with
      | String q r =>
          if code q =? 34 then
            '(k, r1) ← string_body r;
            match skip_ws r1 with
            | String ":" r2 =>
                '(v, r3) ← parse_value fuel' r2;
                let acc' := assign k v acc in
                match skip_ws r3 with
                | String "," r4 => parse_members fuel' acc' r4
                | String "}" rest => Some (acc', rest)
                | _ => None
                end
            | _ => None
            end
          else None
      | EmptyString => None
      end
  end.

(** [JSON.parse(text)]: the value, or a [SyntaxError]. *)
Definition JSON_parse (text : string) : Completion Value :=
  match parse_value (2 * String.length text + 2) text with
  | Some (v, rest) =>
      match skip_ws rest with
      | EmptyString => Normal v
      | _ => Abrupt (ThrowError SyntaxError)
      end
  | None => Abrupt (ThrowError SyntaxError)
  end.

(** *** Serialisation *)

Definition hex_digit (n : Z) : ascii :=
  if n <? 10 then chr (48 + n) else chr (87 + n).

Definition u_escape (u : Z) : string :=
  String (chr 92) (String (chr 117)
    (String (hex_digit (u / 4096)) (String (hex_digit ((u / 256) mod 16))
      (String (hex_digit ((u / 16) mod 16)) (String (hex_digit (u mod 16)) EmptyString))))).

Definition escape_char (c : ascii) : string :=
  let x := code c in
  if x =? 34 then String (chr 92) (String (chr 34) EmptyString)
  else if x =? 92 then String (chr 92) (String (chr 92) EmptyString)
  else if x =? 8 then String (chr 92) "b"
  else if x =? 9 then String (chr 92) "t"
  else if x =? 10 then String (chr 92) "n"
  else if x =? 12 then String (chr 92) "f"
  else if x =? 13 then String (chr 92) "r"
  else if x <? 32 then u_escape x
  else String c EmptyString.

(** Characters of a string literal; a lone surrogate (bytes ED A0..BF xx)
    is written as a [\u] escape. *)
Fixpoint escape (s : string) : string :=
  match s with
  | EmptyString => EmptyString
  | String a r =>
      match r with
      | String b (String c r') =>
          if (code a =? 237) && (160 <=? code b) then
            u_escape (53248 + (code b - 128) * 64 + (code c - 128)) ++ escape r'
          else escape_char a ++ escape r
      | _ => escape_char a ++ escape r
      end
  end.

Definition quote (s : string) : string :=
  String (chr 34) (escape s ++ String (chr 34) EmptyString).

Definition join_comma (parts : list string) : string :=
  match parts with
  | [] => EmptyString
  | p :: ps => fold_left (fun acc x => acc ++ "," ++ x) ps p
  end.

Section Stringify.

(** [Number.prototype.toString] of the double nearest to [m * 10^e] belongs
    to the runtime and is taken as given. *)
Variable Number_toString : Z -> Z -> string.

(** The text of a value inside an array or an object: [undefined] is
    written [null] in an array and left out of an object. *)
Fixpoint serialize (v : Value) : string :=
  match v with
  | JUndefined | JNull => "null"
  | JBool true => "true"
  | JBool false => "false"
  | JNumber m e => Number_toString m e
  | JString s => quote s
  | JArray items =>
      "[" ++ join_comma (map serialize items) ++ "]"
  | JObject props =>
      let fix members (l : list (string * Value)) : list string :=
        match l with
        | [] => []
        | (k, JUndefined) :: l' => members l'
        | (k, x) :: l' => (quote k ++ ":" ++ serialize x) :: members l'
        end in
      "{" ++ join_comma (members props) ++ "}"
  end.

(** [JSON.stringify(v)]: [None] stands for the [undefined] it returns when
    [v] is [undefined]. *)
Definition JSON_stringify (v : Value) : option string :=
  match v with
  | JUndefined => None
  | _ => Some (serialize v)
  end.

End Stringify.

(** Decimal numeral of an integer: what [Number_toString m 0] is for
    [|m| <= 2^53]. *)
Definition decimal (m : Z) : string := NilZero.string_of_int (Z.to_int m).

End JSON.

(** ** Buffers

    [Buffer.toString("utf8")] decodes bytes as UTF-8; a byte that cannot
    continue or begin a well-formed sequence is replaced by U+FFFD, and
    decoding resumes at that byte.  With strings kept as UTF-8 bytes a
    well-formed sequence decodes to itself. *)

Module Buffer.

Definition Buffer := list Byte.byte.

Definition byte_code (b : Byte.byte) : Z := Z.of_N (Byte.to_N b).

Definition replacement : string :=
  String (JSON.chr 239) (String (JSON.chr 191) (String (JSON.chr 189) EmptyString)).

(** State inside a multi-byte sequence: bytes still needed, the bounds on
    the next byte, and the bytes seen so far. *)
Record Pending := {
  needed : nat;
  lower : Z;
  upper : Z;
  seen : string
}.

Definition snoc (s : string) (x : Z) : string :=
  s ++ String (JSON.chr x) EmptyString.

(** A lead byte opens a sequence; [None] for a byte that cannot. *)
Definition lead (x : Z) : option Pending :=
  let one := String (JSON.chr x) EmptyString in
  if (194 <=? x) && (x <=? 223) then
    Some {| needed := 1; lower := 128; upper := 191; seen := one |}
  else if (224 <=? x) && (x <=? 239) then
    Some {| needed := 2;
            lower := if x =? 224 then 160 else 128;
            upper := if x =? 237 then 159 else 191;
            seen := one |}
  else if (240 <=? x) && (x <=? 244) then
    Some {| needed := 3;
            lower := if x =? 240 then 144 else 128;
            upper := if x =? 244 then 143 else 191;
            seen := one |}
  else None.

Fixpoint decode (st : option Pending) (bytes : Buffer) : string :=
  match bytes with
  | [] => match st with
          | None => EmptyString
          | Some _ => replacement
          end
  | b :: rest =>
      let x := byte_code b in
      let fresh :=
        if x <=? 127 then String (JSON.chr x) (decode None rest)
        else match lead x with
             | Some p => decode (Some p) rest
             | None => replacement ++ decode None rest
             end in
      match st with
      | None => fresh
      | Some p =>
          if (lower p <=? x) && (x <=? upper p) then
            match needed p with
            | 0%nat | 1%nat => snoc (seen p) x ++ decode None rest
            | S n => decode (Some {| needed := n; lower := 128; upper := 191;
                                     seen := snoc (seen p) x |}) rest
            end
          else replacement ++ fresh
      end
  end.

Definition toString_utf8 (b : Buffer) : string := decode None b.

(** [Buffer.concat(list)]. *)
Definition concat (chunks : list Buffer) : Buffer := List.concat chunks.

End Buffer.

(** ** The server ([AviaConnectorServer.ts]) *)

Module Server.
Import JS JSON.

(** A socket object of the transport, known by its identity. *)
Definition WebSocket := nat.

Inductive ReadyState := CONNECTING | OPEN | CLOSING | CLOSED.

Record SimulatorStatus := {
  last_error : Value;
  simulator_connected : Value;
  simulator_loaded : Value;
  simulator_name : Value
}.

(** An element of a fragmented frame: a [Buffer], or bytes that
    [Buffer.from] turns into one. *)
Inductive Fragment :=
  | IsBuffer (b : Buffer.Buffer)
  | NotBuffer (bytes : Buffer.Buffer).

Definition Buffer_from (f : Fragment) : Buffer.Buffer :=
  match f with
  | IsBuffer b => b
  | NotBuffer bytes => bytes
  end.

(** The [raw] argument of the message handler. *)
Inductive RawData :=
  | RawString (s : string)
  | RawBuffer (b : Buffer.Buffer)
  | RawArrayBuffer (bytes : Buffer.Buffer)
  | RawArray (items : list Fragment)
  | RawOther (as_string : string).  (* any other value, by what [String(raw)] gives *)

(** An optional callback of the consumer.  All that is known of it here is
    whether it returns or throws on an argument; it does not call back
    into the server. *)
Definition Callback (A : Type) := option (A -> Completion unit).

Record Options := {
  port : Z;
  host : option string;
  path : option string;
  onListening : Callback string;
  onConnection : Callback unit;
  onDisconnect : Callback unit;
  onAircraftData : Callback Value;
  onSimulatorStatus : Callback SimulatorStatus;
  onStatusMessage : Callback Value;
  onPong : Callback Value;
  onError : Callback ErrorObject
}.

(** What the server does to the outside, in order. *)
Inductive Call :=
  | Listening (url : string)
  | Connection
  | Disconnect
  | AircraftDataCall (data : Value)
  | SimulatorStatusCall (status : SimulatorStatus)
  | StatusMessageCall (statusMessage : Value)
  | PongCall (response : Value)
  | ErrorCall (error : ErrorObject).

Inductive Effect :=
  | Invoke (c : Call)
  | SocketClose (ws : WebSocket) (code : Z) (reason : string)
  | SocketSend (ws : WebSocket) (message : option string)
  | ServerClose.

(** A trace entry keeps the value [this.client] had when the effect took
    place. *)
Record Entry := {
  at_client : option WebSocket;
  what : Effect
}.

(** The fields of the server object, and next to them the transport's
    sockets, the sockets that carry the server's handlers, and the trace. *)
Record State := {
  client : option WebSocket;
  simulatorStatus : SimulatorStatus;
  readyState : gmap nat ReadyState;
  listeners : gset nat;
  trace : list Entry
}.

Definition initialStatus : SimulatorStatus :=
  {| last_error := JNumber 0 0;
     simulator_connected := JBool false;
     simulator_loaded := JBool false;
     simulator_name := JUndefined |}.

Definition initial : State :=
  {| client := None; simulatorStatus := initialStatus;
     readyState := ∅; listeners := ∅; trace := [] |}.

(** *** Computations: state and exceptions *)

Definition M (A : Type) : Type := State -> Completion A * State.

Definition ret {A} (a : A) : M A := fun s => (Normal a, s).

Definition bind {A B} (m : M A) (k : A -> M B) : M B :=
  fun s => match m s with
           | (Normal a, s') => k a s'
           | (Abrupt t, s') => (Abrupt t, s')
           end.

Definition lift {A} (c : Completion A) : M A := fun s => (c, s).

(** [try { body } catch (err) { handler }]. *)
Definition try_catch {A} (body : M A) (handler : Thrown -> M A) : M A :=
  fun s => match body s with
           | (Normal a, s') => (Normal a, s')
           | (Abrupt t, s') => handler t s'
           end.

#[global] Instance M_ret : MRet M := @ret.
#[global] Instance M_bind : MBind M := fun A B k m => bind m k.

Definition get : M State := fun s => (Normal s, s).

Definition log (e : Effect) : M unit :=
  fun s => (Normal tt,
            {| client := client s; simulatorStatus := simulatorStatus s;
               readyState := readyState s; listeners := listeners s;
               trace := trace s ++ [{| at_client := client s; what := e |}] |}).

Definition set_client (c : option WebSocket) : M unit :=
  fun s => (Normal tt,
            {| client := c; simulatorStatus := simulatorStatus s;
               readyState := readyState s; listeners := listeners s;
               trace := trace s |}).

Definition set_simulatorStatus (st : SimulatorStatus) : M unit :=
  fun s => (Normal tt,
            {| client := client s; simulatorStatus := st;
               readyState := readyState s; listeners := listeners s;
               trace := trace s |}).

Definition set_readyState (ws : WebSocket) (r : ReadyState) : M unit :=
  fun s => (Normal tt,
            {| client := client s; simulatorStatus := simulatorStatus s;
               readyState := <[ws := r]> (readyState s);
               listeners := listeners s; trace := trace s |}).

Definition add_listeners (ws : WebSocket) : M unit :=
  fun s => (Normal tt,
            {| client := client s; simulatorStatus := simulatorStatus s;
               readyState := readyState s;
               listeners := {[ws]} ∪ listeners s; trace := trace s |}).

(** [cb?.(a)]: nothing when the option was not given. *)
Definition call {A} (cb : Callback A) (tag : A -> Call) (a : A) : M unit :=
  match cb with
  | None => ret tt
  | Some f => log (Invoke (tag a));; lift (f a)
  end.

(** [ws.close(code, reason)]: an open socket starts closing. *)
Definition socket_close (ws : WebSocket) (code : Z) (reason : string) : M unit :=
  log (SocketClose ws code reason);;
  s ← get;
  match readyState s !! ws with
  | Some OPEN => set_readyState ws CLOSING
  | _ => ret tt
  end.

Definition socket_is_open (r : option ReadyState) : bool :=
  match r with
  | Some OPEN => true
  | _ => false
  end.

Section Methods.

Variable opts : Options.

(** Taken from the runtime and the transport: how a number prints, and
    whether [ws.send] returns or throws on a message. *)
Variable Number_toString : Z -> Z -> string.
Variable send_outcome : WebSocket -> option string -> Completion unit.

Definition socket_send (ws : WebSocket) (message : option string) : M unit :=
  log (SocketSend ws message);; lift (send_outcome ws message).

(** [{ type: "unknown", data }]. *)
Definition unknown (data : Value) : Value :=
  JObject [("type", JString "unknown"); ("data", data)].

(** First half of [parseMessage]: the frame as text. *)
Definition frame_text (raw : RawData) : string :=
  match raw with
  | RawString s => s
  | RawBuffer b => Buffer.toString_utf8 b
  | RawArrayBuffer bytes => Buffer.toString_utf8 bytes
  | RawArray items =>
      let buffers := map (fun item => match item with
                                      | IsBuffer b => b
                                      | _ => Buffer_from item
                                      end) items in
      Buffer.toString_utf8 (Buffer.concat buffers)
  | RawOther as_string => as_string
  end.

Definition parseMessage (raw : RawData) : Completion Value :=
  let text := frame_text raw in
  catch (obj ← JSON_parse text;
         if truthy obj then
           ty ← member obj "type";
           if typeof_string ty then Normal obj else Normal (unknown obj)
         else Normal (unknown obj))
        (fun _ => Normal (unknown (JString text))).

Definition handleMessage (message : Value) : M unit :=
  type ← lift (member message "type");
  data ← lift (member message "data");
  if is_string type "AircraftData" then
    if negb (truthy data) then ret tt
    else
      nested ← lift (member data "Aircraft");
      let aircraftData := coalesce nested data in
      call (onAircraftData opts) AircraftDataCall aircraftData
  else if is_string type "Status" then
    if negb (truthy data) then ret tt
    else
      s ← get;
      let old := simulatorStatus s in
      le ← lift (member data "last_error");
      sc ← lift (member data "simulator_connected");
      sl ← lift (member data "simulator_loaded");
      sn ← lift (member data "simulator_name");
      set_simulatorStatus
        {| last_error := coalesce le (last_error old);
           simulator_connected := coalesce sc (simulator_connected old);
           simulator_loaded := coalesce sl (simulator_loaded old);
           simulator_name := coalesce sn (simulator_name old) |};;
      s' ← get;
      call (onSimulatorStatus opts) SimulatorStatusCall (simulatorStatus s')
  else if is_string type "pong" then
    if negb (truthy data) then ret tt
    else
      let pongData := data in
      call (onPong opts) PongCall pongData
  else if is_string type "Error" || is_string type "error" then
    let errorMsg :=
      if typeof_string data then data
      else coalesce (member_opt data "message") (JString "Unknown error") in
    call (onError opts) ErrorCall (NewError errorMsg)
  else ret tt.

Definition send (data : Value) : M bool :=
  s ← get;
  match client s with
  | None => ret false
  | Some ws =>
      if negb (socket_is_open (readyState s !! ws)) then ret false
      else
        try_catch
          (let message := match data with
                          | JString str => Some str
                          | _ => JSON_stringify Number_toString data
                          end in
           socket_send ws message;;
           ret true)
          (fun err => call (onError opts) ErrorCall (as_Error err);; ret false)
  end.

Definition requestAircraftData_envelope : Value :=
  JObject [("type", JString "request");
           ("data", JObject [("type", JString "AircraftData")])].

Definition requestSimulatorStatus_envelope : Value :=
  JObject [("type", JString "Status"); ("data", JObject [])].

Definition ping_envelope : Value :=
  JObject [("type", JString "ping")].

Definition requestAircraftData : M bool := send requestAircraftData_envelope.

Definition requestSimulatorStatus : M bool := send requestSimulatorStatus_envelope.

Definition ping : M bool := send ping_envelope.

Definition getSimulatorStatus (s : State) : SimulatorStatus := simulatorStatus s.

Definition isSimulatorConnected (s : State) : bool :=
  is_true (simulator_connected (simulatorStatus s)).

Definition isSimulatorLoaded (s : State) : bool :=
  is_true (simulator_loaded (simulatorStatus s)).

Definition getSimulatorName (s : State) : Value :=
  simulator_name (simulatorStatus s).

Definition isClientConnected (s : State) : bool :=
  match client s with
  | Some ws => socket_is_open (readyState s !! ws)
  | None => false
  end.

Definition close : M unit :=
  s ← get;
  match client s with
  | Some ws => socket_close ws 1000 "Server closing";; set_client None
  | None => ret tt
  end;;
  log ServerClose.

(** *** The handlers registered by the constructor *)

Definition on_listening : M unit :=
  let h := default "0.0.0.0" (host opts) in
  let url := "ws://" ++ h ++ ":" ++ Number_toString (port opts) 0
             ++ default EmptyString (path opts) in
  call (onListening opts) Listening url.

Definition on_message (raw : RawData) : M unit :=
  try_catch
    (message ← lift (parseMessage raw);
     handleMessage message)
    (fun err => call (onError opts) ErrorCall (as_Error err)).

Definition on_close (ws : WebSocket) : M unit :=
  s ← get;
  if decide (client s = Some ws) then
    set_client None;;
    call (onDisconnect opts) (fun _ => Disconnect) tt
  else ret tt.

Definition on_socket_error (err : ErrorObject) : M unit :=
  call (onError opts) ErrorCall err.

Definition on_connection (ws : WebSocket) : M unit :=
  s ← get;
  match client s with
  | Some old => socket_close old 1000 "New client connected"
  | None => ret tt
  end;;
  set_client (Some ws);;
  call (onConnection opts) (fun _ => Connection) tt;;
  add_listeners ws.

Definition on_server_error (err : ErrorObject) : M unit :=
  call (onError opts) ErrorCall err.

(** *** The transport

    An event reaches a socket's handlers only once they are registered.
    The socket handed to a connection event is open; a socket that reports
    its close is closed.  The transport makes a new socket object for each
    connection, so no socket receives the handlers twice. *)

Inductive Event :=
  | EvListening
  | EvConnection (ws : WebSocket)
  | EvMessage (ws : WebSocket) (raw : RawData)
  | EvClose (ws : WebSocket)
  | EvSocketError (ws : WebSocket) (err : ErrorObject)
  | EvServerError (err : ErrorObject).

Definition when_registered (ws : WebSocket) (h : M unit) : M unit :=
  s ← get;
  if decide (ws ∈ listeners s) then h else ret tt.

Definition deliver (ev : Event) : M unit :=
  match ev with
  | EvListening => on_listening
  | EvConnection ws => set_readyState ws OPEN;; on_connection ws
  | EvMessage ws raw => when_registered ws (on_message raw)
  | EvClose ws => set_readyState ws CLOSED;; when_registered ws (on_close ws)
  | EvSocketError ws err => when_registered ws (on_socket_error err)
  | EvServerError err => on_server_error err
  end.

(** What can happen to a server: the transport delivers an event, or the
    application calls [send] or [close]. *)
Inductive Action :=
  | Deliver (ev : Event)
  | CallSend (data : Value)
  | CallClose.

Definition perform (a : Action) (s : State) : State :=
  match a with
  | Deliver ev => snd (deliver ev s)
  | CallSend data => snd (send data s)
  | CallClose => snd (close s)
  end.

Definition run (actions : list Action) (s : State) : State :=
  fold_left (fun st a => perform a st) actions s.

End Methods.

End Server.

Import StatusCodes JS JSON Server.

(** ** Notions used by the statements *)

(** A decimal numeral: an optional minus sign before a non-empty run of
    digits, and nothing else. *)
Fixpoint all_digits (s : string) : bool :=
  match s with
  | EmptyString => true
  | String c r => is_digit c && all_digits r
  end.

Definition is_numeral (s : string) : bool :=
  match s with
  | String "-" r => starts_with_digit r && all_digits r
  | _ => starts_with_digit s && all_digits s
  end.

(** The text [parseInt] reads digits from: white space and one sign
    removed. *)
Definition unsigned_part (s : string) : string :=
  match trimStart s with
  | String "-" r => r
  | String "+" r => r
  | t => t
  end.

(** The five bands, and no category outside them. *)
Definition classified (n : Z) (c : option StatusCodeCategory) : Prop :=
  (200 <= n < 300 -> c = Some SUCCESS)
  /\ (400 <= n < 500 -> c = Some CLIENT_ERROR)
  /\ (500 <= n < 600 -> c = Some SERVER_ERROR)
  /\ (600 <= n < 700 -> c = Some SIMULATOR)
  /\ (900 <= n < 1000 -> c = Some CUSTOM)
  /\ (n < 200 \/ 300 <= n < 400 \/ 700 <= n < 900 \/ 1000 <= n -> c = None).

(** An object that carries a string [type] field. *)
Definition has_string_type (v : Value) : bool :=
  match v with
  | JObject props =>
      match assoc "type" props with
      | Some (JString _) => true
      | _ => false
      end
  | _ => false
  end.

(** The types the dispatch engine acts on. *)
Definition dispatched_types : list string :=
  ["AircraftData"; "Status"; "pong"; "Error"; "error"].

(** [{ type, data }]. *)
Definition envelope (type : string) (data : Value) : Value :=
  JObject [("type", JString type); ("data", data)].

(** A partial [SimulatorStatus]: each field absent or holding a value of
    its type, and the object that carries exactly the present ones. *)
Record PartialStatus := {
  upd_last_error : option (Z * Z);
  upd_simulator_connected : option bool;
  upd_simulator_loaded : option bool;
  upd_simulator_name : option string
}.

Definition field (k : string) (v : option Value) : list (string * Value) :=
  match v with
  | Some x => [(k, x)]
  | None => []
  end.

Definition update_object (u : PartialStatus) : Value :=
  JObject (field "last_error" ((fun p => JNumber (fst p) (snd p)) <$> upd_last_error u)
           ++ field "simulator_connected" (JBool <$> upd_simulator_connected u)
           ++ field "simulator_loaded" (JBool <$> upd_simulator_loaded u)
           ++ field "simulator_name" (JString <$> upd_simulator_name u)).

Definition empty_update : PartialStatus :=
  {| upd_last_error := None; upd_simulator_connected := None;
     upd_simulator_loaded := None; upd_simulator_name := None |}.

(** The state after a [Status] envelope that carries the update. *)
Definition status_after (opts : Options) (u : PartialStatus) (s : State)
  : State :=
  snd (handleMessage opts (envelope "Status" (update_object u)) s).

(** The body of the [try] block of the message handler. *)
Definition decode_and_dispatch (opts : Options) (raw : RawData) : M unit :=
  message ← lift (parseMessage raw); handleMessage opts message.

(** The three canonical requests. *)
Definition canonical_requests : list Value :=
  [requestAircraftData_envelope; requestSimulatorStatus_envelope; ping_envelope].

(** [text] is what the first entry added to the trace hands to socket
    [ws]. *)
Definition sends_first (ws : WebSocket) (text : string) (s s' : State) : Prop :=
  exists rest,
    trace s' = (trace s ++ {| at_client := Some ws;
                              what := SocketSend ws (Some text) |} :: rest)%list.

(** An effect other than a call of [onStatusMessage]. *)
Definition benign (e : Effect) : Prop :=
  match e with
  | Invoke (StatusMessageCall _) => False
  | _ => True
  end.

Definition never_status_message (s : State) : Prop :=
  Forall (fun e => benign (what e)) (trace s).

(** Every socket the transport holds open is the current client. *)
Definition single_occupancy (s : State) : Prop :=
  forall h, readyState s !! h = Some OPEN -> client s = Some h.

(** What [on_connection] adds to the trace when [old] is attached and [ws]
    arrives: the close of [old] while it is still the client, then the
    connection callback, if given, with [ws] already the client. *)
Definition supersession (opts : Options) (old ws : WebSocket) : list Entry :=
  {| at_client := Some old;
     what := SocketClose old 1000 "New client connected" |}
  :: match onConnection opts with
     | Some _ => [{| at_client := Some ws; what := Invoke Connection |}]
     | None => []
     end.

(** A property of the state that a computation keeps, however it ends. *)
Definition preserves {A} (I : State -> Prop) (m : M A) : Prop :=
  forall s, I s -> I (snd (m s)).

(** The same options with another [onStatusMessage]. *)
Definition with_onStatusMessage (f : Callback Value) (o : Options) : Options :=
  {| port := port o; host := host o; path := path o;
     onListening := onListening o; onConnection := onConnection o;
     onDisconnect := onDisconnect o; onAircraftData := onAircraftData o;
     onSimulatorStatus := onSimulatorStatus o; onStatusMessage := f;
     onPong := onPong o; onError := onError o |}.

(** ** The example application ([examples/simple-server.ts])

    The body of the timer the example starts on connection: poll the
    status, and ask for aircraft data when the simulator is connected. *)

Module Example.

Definition data_interval_tick (opts : Options)
    (Number_toString : Z -> Z -> string)
    (send_outcome : WebSocket -> option string -> Completion unit) : M unit :=
  _ ← requestSimulatorStatus opts Number_toString send_outcome;
  s ← get;
  if isSimulatorConnected s then
    _ ← requestAircraftData opts Number_toString send_outcome; ret tt
  else ret tt.

End Example.

(** ** Notions used by the further properties *)

(** The band each group of the enum is declared under. *)
Definition StatusCode_group (c : StatusCode) : StatusCodeCategory :=
  match c with
  | OK | CREATED | ACCEPTED => SUCCESS
  | BAD_REQUEST | UNAUTHORIZED | FORBIDDEN | NOT_FOUND | METHOD_NOT_ALLOWED
  | REQUEST_TIMEOUT | CONFLICT => CLIENT_ERROR
  | INTERNAL_SERVER_ERROR | NOT_IMPLEMENTED | BAD_GATEWAY
  | SERVICE_UNAVAILABLE | GATEWAY_TIMEOUT => SERVER_ERROR
  | SIMULATOR_CONNECTED | SIMULATOR_DISCONNECTED | SIMULATOR_PAUSED
  | SIMULATOR_RESUMED | SIMULATOR_ERROR | SIMULATOR_INITIALIZING
  | SIMULATOR_READY => SIMULATOR
  | _ => CUSTOM
  end.

(** A callback that returns whenever it is called (or was not given). *)
Definition returns_normally {A} (cb : Callback A) : Prop :=
  forall f a, cb = Some f -> f a = Normal tt.

(** What [send] hands to the socket for [data]. *)
Definition message_of (Number_toString : Z -> Z -> string) (data : Value)
  : option string :=
  match data with
  | JString str => Some str
  | _ => JSON_stringify Number_toString data
  end.

(** The state with one more trace entry. *)
Definition logged (e : Effect) (s : State) : State := snd (log e s).

(** An entry that sends to, or closes, a socket names the socket that was
    the client at that moment; a close carries code 1000 and one of the two
    reasons. *)
Definition entry_ok (e : Entry) : Prop :=
  match what e with
  | SocketSend ws _ => at_client e = Some ws
  | SocketClose ws code reason =>
      at_client e = Some ws /\ code = 1000
      /\ (reason = "New client connected" \/ reason = "Server closing")
  | _ => True
  end.

Definition targets_client_only (s : State) : Prop := Forall entry_ok (trace s).

(** Text made of ASCII characters only. *)
Fixpoint ascii_text (s : string) : bool :=
  match s with
  | EmptyString => true
  | String c r => (code c <? 128) && ascii_text r
  end.

(** The bytes of the fragments of a frame, in order. *)
Definition fragment_bytes (items : list Fragment) : Buffer.Buffer :=
  Buffer.concat (map Buffer_from items).


(** ** Sample servers and frames *)

Definition integer_toString (m e : Z) : string := decimal m.

Definition accepting : WebSocket -> option string -> Completion unit :=
  fun _ _ => Normal tt.

Definition silent : Options :=
  {| port := 8765; host := None; path := None;
     onListening := None; onConnection := None; onDisconnect := None;
     onAircraftData := None; onSimulatorStatus := None;
     onStatusMessage := None; onPong := None; onError := None |}.

Definition boom : Thrown := ThrowError (ForeignError "boom").

(** Every callback given; the pong callback throws. *)
Definition pong_throws : Options :=
  {| port := 8765; host := None; path := None;
     onListening := Some (fun _ => Normal tt);
     onConnection := Some (fun _ => Normal tt);
     onDisconnect := Some (fun _ => Normal tt);
     onAircraftData := Some (fun _ => Normal tt);
     onSimulatorStatus := Some (fun _ => Normal tt);
     onStatusMessage := Some (fun _ => Normal tt);
     onPong := Some (fun _ => Abrupt boom);
     onError := Some (fun _ => Normal tt) |}.

(** The text frame a peer sends for a value. *)
Definition frame_of (v : Value) : RawData :=
  RawString (serialize integer_toString v).

Definition pong_frame : RawData :=
  frame_of (envelope "pong"
              (JObject [("payload", JObject [("simulator", JString "MSFS")])])).

(** A [Status] payload that names the simulator [null] and reports it
    disconnected. *)
Definition null_name_update : Value :=
  JObject [("simulator_name", JNull); ("simulator_connected", JBool false)].

(** A server that has been told of a connected simulator named MSFS. *)
Definition flying : State :=
  status_after silent
    {| upd_last_error := None; upd_simulator_connected := Some true;
       upd_simulator_loaded := None; upd_simulator_name := Some "MSFS" |}
    initial.

(** Every callback given; the connection callback throws. *)
Definition connection_throws : Options :=
  {| port := 8765; host := None; path := None;
     onListening := Some (fun _ => Normal tt);
     onConnection := Some (fun _ => Abrupt boom);
     onDisconnect := Some (fun _ => Normal tt);
     onAircraftData := Some (fun _ => Normal tt);
     onSimulatorStatus := Some (fun _ => Normal tt);
     onStatusMessage := Some (fun _ => Normal tt);
     onPong := Some (fun _ => Normal tt);
     onError := Some (fun _ => Normal tt) |}.



(** A flat aircraft payload. *)
Definition altitude_2200 : Value :=
  JObject [("PLANE_ALTITUDE", JNumber 2200 0)].

(** A [Status] payload that reports the simulator connected. *)
Definition connected_update : Value :=
  JObject [("simulator_connected", JBool true)].

(** A server with socket [1] attached and open. *)
Definition attached : State :=
  perform silent integer_toString accepting (Deliver (EvConnection 1%nat)) initial.


(** ** Status taxonomy: theorems *)

Lemma is_digit_range c : is_digit c = true -> 48 <= code c <= 57.
Proof. unfold is_digit. intros H. apply andb_true_iff in H as [H1 H2]. lia. Qed.

Lemma digit_not_ws c : is_digit c = true -> ws1 (code c) = false /\ code c < 128.
Proof.
  intros H. apply is_digit_range in H. unfold ws1. split; [|lia].
  rewrite orb_false_iff, andb_false_iff, !Z.leb_gt, Z.eqb_neq. lia.
Qed.

Lemma trimStart_plain c r :
  ws1 (code c) = false -> code c < 128 -> trimStart (String c r) = String c r.
Proof.
  intros Hws Hlt. cbn [trimStart]. rewrite Hws.
  destruct r as [|b r2]; [reflexivity|].
  assert (ws2 (code c) (code b) = false) as ->.
  { unfold ws2. destruct (Z.eqb_spec (code c) 194); [lia | reflexivity]. }
  destruct r2 as [|d r3]; [reflexivity|].
  assert (ws3 (code c) (code b) (code d) = false) as ->; [|reflexivity].
  unfold ws3.
  repeat match goal with
         | |- context [code c =? ?k] =>
             destruct (Z.eqb_spec (code c) k); [lia | cbn [andb orb]]
         end.
  reflexivity.
Qed.

Lemma read_digits_stop acc t :
  starts_with_digit t = false -> read_digits acc t = acc.
Proof. destruct t as [|c r]; cbn; [reflexivity | intros ->; reflexivity]. Qed.

Lemma read_digits_cons c acc r :
  is_digit c = true ->
  read_digits acc (String c r) = read_digits (10 * acc + digit_value c) r.
Proof. cbn [read_digits]. by intros ->. Qed.

Ltac digit_case IH t Ht :=
  change (String ?c ?s ++ t) with (String c (s ++ t));
  rewrite read_digits_cons by reflexivity;
  match goal with
  | |- context [digit_value ?c] =>
      let v := eval vm_compute in (digit_value c) in
      change (digit_value c) with v
  end.

Lemma read_digits_of_uint_acc d : forall acc t,
  starts_with_digit t = false ->
  read_digits (Z.pos acc) (NilEmpty.string_of_uint d ++ t)
  = Z.pos (Pos.of_uint_acc d acc).
Proof.
  induction d; intros acc t Ht; cbn [NilEmpty.string_of_uint Pos.of_uint_acc];
    [cbn; by apply read_digits_stop | ..];
    digit_case IHd t Ht; rewrite <- (IHd _ t Ht); f_equal; lia.
Qed.

Lemma read_digits_of_uint d : forall t,
  starts_with_digit t = false ->
  read_digits 0 (NilEmpty.string_of_uint d ++ t) = Z.of_N (Pos.of_uint d).
Proof.
  induction d; intros t Ht; cbn [NilEmpty.string_of_uint Pos.of_uint];
    [cbn; by apply read_digits_stop | ..];
    digit_case IHd t Ht; change (10 * 0 + ?k) with k;
    [by apply IHd | by rewrite read_digits_of_uint_acc ..].
Qed.

Lemma uint_starts_with_digit d t :
  d <> Nil -> starts_with_digit (NilEmpty.string_of_uint d ++ t) = true.
Proof. destruct d; intros H; [congruence | reflexivity..]. Qed.

Lemma parse_unsigned_pos p t :
  starts_with_digit t = false ->
  parse_unsigned (NilEmpty.string_of_uint (Pos.to_uint p) ++ t) = Int (Z.pos p).
Proof.
  intros Ht. unfold parse_unsigned.
  rewrite uint_starts_with_digit by apply Unsigned.to_uint_nonnil.
  rewrite read_digits_of_uint by exact Ht.
  by rewrite Unsigned.of_to.
Qed.

Lemma string_of_pos p :
  NilZero.string_of_uint (Pos.to_uint p) = NilEmpty.string_of_uint (Pos.to_uint p).
Proof.
  pose proof (Unsigned.to_uint_nonnil p). by destruct (Pos.to_uint p).
Qed.

Lemma uint_head d t :
  d <> Nil ->
  exists c r, NilEmpty.string_of_uint d ++ t = String c r /\ is_digit c = true.
Proof.
  destruct d; intros H; [congruence | ..]; eexists _, _; split;
    cbn [NilEmpty.string_of_uint]; try reflexivity.
Qed.

(** [parseInt] reads back the decimal numeral of any integer, whatever
    follows it, as long as that is not one more digit. *)
Lemma parseInt_decimal n t :
  starts_with_digit t = false -> parseInt (decimal n ++ t) = Int n.
Proof.
  intros Ht. unfold parseInt, decimal.
  destruct n as [|p|p]; cbn [Z.to_int NilZero.string_of_int].
  - change (NilZero.string_of_uint zero ++ t) with (String "0" t).
    rewrite trimStart_plain by (vm_compute; done).
    unfold parse_unsigned. cbn. by rewrite read_digits_stop.
  - rewrite string_of_pos.
    destruct (uint_head (Pos.to_uint p) t (Unsigned.to_uint_nonnil p))
      as (c & r & E & Hc).
    pose proof (parse_unsigned_pos p t Ht) as Hp. rewrite E in *.
    rewrite trimStart_plain by apply (digit_not_ws c Hc).
    destruct c as [[] [] [] [] [] [] [] []]; try exact Hp;
      vm_compute in Hc; discriminate.
  - rewrite string_of_pos.
    change (String ?c ?s ++ t) with (String c (s ++ t)).
    rewrite trimStart_plain by (vm_compute; done).
    by rewrite parse_unsigned_pos.
Qed.

Lemma category_classified code n :
  parseInt code = Int n -> classified n (getStatusCodeCategory code).
Proof.
  intros H. unfold getStatusCodeCategory, classified. rewrite H.
  repeat match goal with
         | |- context [?a <=? ?b] => destruct (Z.leb_spec a b)
         | |- context [?a <? ?b] => destruct (Z.ltb_spec a b)
         end; cbn [andb]; repeat split; intros; first [reflexivity | lia].
Qed.

Lemma parseInt_no_digits code :
  starts_with_digit (unsigned_part code) = false -> parseInt code = NaN.
Proof.
  unfold unsigned_part, parseInt, parse_unsigned.
  destruct (trimStart code) as [|c r]; [done|].
  destruct c as [[] [] [] [] [] [] [] []]; try (by intros ->);
    cbn [negate]; by intros ->.
Qed.

(** C3 (as stated, refuted): a string that is no numeral still gets a
    category when it begins with digits: [404abc] is classified as a
    client error. *)
Lemma category_of_non_numeral_counterexample :
  ~ (forall code, is_numeral code = false -> getStatusCodeCategory code = None).
Proof. intros H. specialize (H "404abc" eq_refl). discriminate H. Qed.

(** C3 (amended): the category is that of the integer [parseInt(code, 10)]
    reads: after leading white space and one optional sign, the longest run
    of decimal digits, whatever follows it.  That integer is classified by
    the five bands and has no category outside them; in particular the
    numeral of [n] followed by any text that does not go on with a digit is
    classified as [n] is.  A code with no such run of digits has no
    category. *)
Theorem category_by_leading_integer :
  (forall n t, starts_with_digit t = false ->
     classified n (getStatusCodeCategory (decimal n ++ t)))
  /\ (forall code n, parseInt code = Int n ->
        classified n (getStatusCodeCategory code))
  /\ (forall code, starts_with_digit (unsigned_part code) = false ->
        getStatusCodeCategory code = None)
  /\ getStatusCodeCategory "404" = Some CLIENT_ERROR
  /\ getStatusCodeCategory "650" = Some SIMULATOR
  /\ getStatusCodeCategory "150" = None
  /\ getStatusCodeCategory "abc" = None
  /\ getStatusCodeCategory "404abc" = Some CLIENT_ERROR.
Proof.
  split; [|split; [|split]].
  - intros n t Ht. apply category_classified. by apply parseInt_decimal.
  - apply category_classified.
  - intros code H. unfold getStatusCodeCategory.
    by rewrite parseInt_no_digits.
  - repeat split.
Qed.

Lemma category_by_leading_integer_witness :
  classified 404 (getStatusCodeCategory (decimal 404 ++ "abc")).
Proof. exact (proj1 category_by_leading_integer 404 "abc" eq_refl). Defined.

Lemma isValidStatusCode_iff code :
  isValidStatusCode code = true <-> exists c, code = StatusCode_value c.
Proof.
  unfold isValidStatusCode, Object_values_StatusCode. rewrite existsb_exists.
  split.
  - intros (x & Hin & Heq). apply String.eqb_eq in Heq as ->.
    apply in_map_iff in Hin as (c & <- & _). by exists c.
  - intros (c & ->). exists (StatusCode_value c). split.
    + apply in_map. destruct c; cbn; tauto.
    + apply String.eqb_refl.
Qed.

(** C8: a code that passes [isValidStatusCode] is one of the enumerated
    values and has a category; the converse fails, [650] has the simulator
    category and is not a known code. *)
Theorem known_code_has_category :
  (forall code, isValidStatusCode code = true ->
     (exists c, code = StatusCode_value c)
     /\ getStatusCodeCategory code <> None)
  /\ getStatusCodeCategory "650" = Some SIMULATOR
  /\ isValidStatusCode "650" = false.
Proof.
  split; [|split; reflexivity].
  intros code H. apply isValidStatusCode_iff in H as [c ->].
  split; [by exists c|]. by destruct c.
Qed.

Lemma known_code_has_category_witness :
  (exists c, "404" = StatusCode_value c)
  /\ getStatusCodeCategory "404" <> None.
Proof. exact (proj1 known_code_has_category "404" eq_refl). Defined.

(** ** Envelope codec: theorems *)

Lemma truthy_not_nullish v : truthy v = true -> nullish v = false.
Proof. by destruct v. Qed.

Lemma member_truthy v k : truthy v = true -> member v k = Normal (prop v k).
Proof. intros H. unfold member. by rewrite truthy_not_nullish. Qed.

Lemma has_string_type_spec v :
  has_string_type v = truthy v && typeof_string (prop v "type").
Proof.
  destruct v as [| |[]|m e|s|items|props]; cbn; try reflexivity.
  - by destruct (negb (rounds_to_zero m e)).
  - by destruct (negb (String.eqb s EmptyString)).
  - unfold has_string_type, prop. by destruct (assoc "type" props) as [[]|].
Qed.

Lemma parseMessage_cases (raw : RawData) :
  parseMessage raw =
  Normal match JSON_parse (frame_text raw) with
         | Normal obj => if has_string_type obj then obj else unknown obj
         | Abrupt _ => unknown (JString (frame_text raw))
         end.
Proof.
  unfold parseMessage. cbv zeta.
  destruct (JSON_parse (frame_text raw)) as [obj|t]; [|reflexivity].
  rewrite has_string_type_spec. cbn.
  destruct (truthy obj) eqn:Ht; [|reflexivity].
  rewrite member_truthy by done. cbn.
  by destruct (typeof_string (prop obj "type")).
Qed.

(** Every decoded envelope carries a string [type]. *)
Lemma parseMessage_type raw :
  exists env ty, parseMessage raw = Normal env /\ prop env "type" = JString ty.
Proof.
  rewrite parseMessage_cases.
  destruct (JSON_parse (frame_text raw)) as [obj|t].
  - destruct (has_string_type obj) eqn:H.
    + destruct obj as [| | | | | |props]; try discriminate H.
      cbn in H. destruct (assoc "type" props) as [[| | | |ty| |]|] eqn:E;
        try discriminate H.
      exists (JObject props), ty. split; [done|]. unfold prop. by rewrite E.
    + by exists (unknown obj), "unknown".
  - by exists (unknown (JString (frame_text raw))), "unknown".
Qed.

Lemma frame_text_spec raw :
  frame_text raw =
  match raw with
  | RawString text => text
  | RawBuffer bytes | RawArrayBuffer bytes => Buffer.toString_utf8 bytes
  | RawArray items =>
      Buffer.toString_utf8
        (List.concat (map (fun item => match item with
                                       | IsBuffer bytes => bytes
                                       | NotBuffer bytes => bytes
                                       end) items))
  | RawOther as_string => as_string
  end.
Proof.
  destruct raw as [text|bytes|bytes|items|other]; try reflexivity.
  cbn [frame_text]. unfold Buffer.concat. do 2 f_equal.
  apply map_ext. by intros [].
Qed.

(** C2: [parseMessage] returns an envelope for every frame and never
    raises.  The text of the frame is the string itself, or the UTF-8
    reading of the bytes of the buffer, or of the bytes of the chunks put
    together in order.  When that text parses to an object with a string
    [type], the object is the envelope; when it parses to anything else, the
    envelope has type [unknown] and the parsed value as data; when it does
    not parse, the envelope has type [unknown] and the text as data.  In all
    cases the envelope carries a string [type]. *)
Theorem parseMessage_total (raw : RawData) :
  let text :=
    match raw with
    | RawString text => text
    | RawBuffer bytes | RawArrayBuffer bytes => Buffer.toString_utf8 bytes
    | RawArray items =>
        Buffer.toString_utf8
          (List.concat (map (fun item => match item with
                                         | IsBuffer bytes => bytes
                                         | NotBuffer bytes => bytes
                                         end) items))
    | RawOther as_string => as_string
    end in
  parseMessage raw =
  Normal match JSON_parse text with
         | Normal obj =>
             if has_string_type obj then obj
             else JObject [("type", JString "unknown"); ("data", obj)]
         | Abrupt _ =>
             JObject [("type", JString "unknown"); ("data", JString text)]
         end
  /\ (exists env ty,
        parseMessage raw = Normal env /\ prop env "type" = JString ty)
  /\ parseMessage (RawString "[1,2]")
     = Normal (JObject [("type", JString "unknown");
                        ("data", JArray [JNumber 1 0; JNumber 2 0])])
  /\ parseMessage (RawBuffer (list_byte_of_string "not json"))
     = Normal (JObject [("type", JString "unknown");
                        ("data", JString "not json")]).
Proof.
  cbv zeta. rewrite <- frame_text_spec.
  split; [apply parseMessage_cases|].
  split; [apply parseMessage_type|].
  split; reflexivity.
Qed.

(** ** Dispatch: theorems *)

Lemma member_object props k : member (JObject props) k = Normal (prop (JObject props) k).
Proof. reflexivity. Qed.

Lemma string_type_object v ty :
  prop v "type" = JString ty -> exists props, v = JObject props.
Proof. destruct v; try discriminate. eauto. Qed.

Lemma is_string_neq ty lit : ty <> lit -> is_string (JString ty) lit = false.
Proof. intros H. cbn. by apply String.eqb_neq. Qed.

Lemma bind_lift {A B} (a : A) (k : A -> M B) : (lift (Normal a) ≫= k) = k a.
Proof. reflexivity. Qed.

Lemma handleMessage_other opts message ty s :
  prop message "type" = JString ty ->
  ~ In ty dispatched_types ->
  handleMessage opts message s = (Normal tt, s).
Proof.
  intros Hty Hnot. destruct (string_type_object _ _ Hty) as [props ->].
  unfold handleMessage.
  rewrite !member_object, Hty, !bind_lift.
  cbn in Hnot.
  rewrite !is_string_neq by (intros E; apply Hnot; rewrite E; auto 10).
  reflexivity.
Qed.

Lemma on_message_other opts raw message ty s :
  parseMessage raw = Normal message ->
  prop message "type" = JString ty ->
  ~ In ty dispatched_types ->
  on_message opts raw s = (Normal tt, s).
Proof.
  intros Hp Hty Hnot. unfold on_message, try_catch.
  rewrite Hp, bind_lift.
  by rewrite (handleMessage_other opts message ty s Hty Hnot).
Qed.

(** C6: an envelope whose type is none of [AircraftData], [Status],
    [pong], [Error], [error] is dropped: the message handler returns with
    the state as it was, so the simulator status is the same and the trace
    has no new entry, no callback and no error callback.  The frame
    [not json] decodes to the [unknown] envelope and is dropped in this
    way. *)
Theorem unknown_type_ignored :
  (forall opts raw message ty s,
      parseMessage raw = Normal message ->
      prop message "type" = JString ty ->
      ~ In ty dispatched_types ->
      handleMessage opts message s = (Normal tt, s)
      /\ on_message opts raw s = (Normal tt, s))
  /\ (forall opts s,
        parseMessage (RawString "not json") = Normal (unknown (JString "not json"))
        /\ on_message opts (RawString "not json") s = (Normal tt, s)).
Proof.
  split.
  - intros opts raw message ty s Hp Hty Hnot. split.
    + by apply (handleMessage_other opts message ty).
    + by apply (on_message_other opts raw message ty).
  - intros opts s. split; [reflexivity|].
    apply (on_message_other opts _ (unknown (JString "not json")) "unknown");
      [reflexivity | reflexivity |].
    cbn. intros H. repeat (destruct H as [H|H]; [discriminate H|]). exact H.
Qed.

Lemma unknown_type_ignored_witness :
  handleMessage pong_throws (envelope "telemetry" JNull) attached
  = (Normal tt, attached)
  /\ on_message pong_throws (frame_of (envelope "telemetry" JNull)) attached
     = (Normal tt, attached).
Proof.
  apply (proj1 unknown_type_ignored pong_throws
           (frame_of (envelope "telemetry" JNull))
           (envelope "telemetry" JNull) "telemetry" attached).
  - vm_compute. reflexivity.
  - reflexivity.
  - cbn. intros H. repeat (destruct H as [H|H]; [discriminate H|]). exact H.
Defined.

(** *** The status merge *)

Ltac eval_prop :=
  repeat match goal with
         | |- context [prop (JObject ?l) ?k] =>
             let v := eval vm_compute in (prop (JObject l) k) in
             change (prop (JObject l) k) with v
         end.

Ltac eval_is_string :=
  repeat match goal with
         | |- context [is_string (JString ?a) ?b] =>
             let v := eval vm_compute in (is_string (JString a) b) in
             change (is_string (JString a) b) with v
         end;
  cbn [orb].

(** What a [Status] envelope with truthy data does: the four fields are
    merged, then the simulator-status callback gets the merged record. *)
Lemma handleMessage_Status opts data s :
  truthy data = true ->
  handleMessage opts (envelope "Status" data) s =
  (set_simulatorStatus
     {| last_error :=
          coalesce (prop data "last_error") (last_error (simulatorStatus s));
        simulator_connected :=
          coalesce (prop data "simulator_connected")
                   (simulator_connected (simulatorStatus s));
        simulator_loaded :=
          coalesce (prop data "simulator_loaded")
                   (simulator_loaded (simulatorStatus s));
        simulator_name :=
          coalesce (prop data "simulator_name")
                   (simulator_name (simulatorStatus s)) |};;
   s' ← get;
   call (onSimulatorStatus opts) SimulatorStatusCall (simulatorStatus s')) s.
Proof.
  intros Ht. unfold handleMessage, envelope.
  rewrite !member_object. eval_prop. rewrite !bind_lift. eval_is_string.
  rewrite Ht. cbn [negb]. rewrite !(member_truthy data) by exact Ht.
  reflexivity.
Qed.

Lemma call_simulatorStatus {A} (cb : Callback A) tag a s :
  simulatorStatus (snd (call cb tag a s)) = simulatorStatus s.
Proof. destruct cb as [f|]; [|reflexivity]. cbn. by destruct (f a). Qed.

Lemma status_after_Status opts data s :
  truthy data = true ->
  simulatorStatus (snd (handleMessage opts (envelope "Status" data) s)) =
  {| last_error :=
       coalesce (prop data "last_error") (last_error (simulatorStatus s));
     simulator_connected :=
       coalesce (prop data "simulator_connected")
                (simulator_connected (simulatorStatus s));
     simulator_loaded :=
       coalesce (prop data "simulator_loaded")
                (simulator_loaded (simulatorStatus s));
     simulator_name :=
       coalesce (prop data "simulator_name")
                (simulator_name (simulatorStatus s)) |}.
Proof.
  intros Ht. rewrite handleMessage_Status by exact Ht.
  unfold mbind, M_bind, bind, set_simulatorStatus, get.
  by rewrite call_simulatorStatus.
Qed.

(** C4: the merge is field by field: a field of the update that is present
    becomes the new value, an absent one keeps the previous value.  The
    empty update leaves the status as it was, and [simulator_connected:
    true] followed by [simulator_name: MSFS] leaves both set. *)
Theorem status_merge_fieldwise opts (u : PartialStatus) (s : State) :
  let old := simulatorStatus s in
  simulatorStatus (status_after opts u s) =
    {| last_error :=
         from_option (fun p => JNumber p.1 p.2) (last_error old) (upd_last_error u);
       simulator_connected :=
         from_option JBool (simulator_connected old) (upd_simulator_connected u);
       simulator_loaded :=
         from_option JBool (simulator_loaded old) (upd_simulator_loaded u);
       simulator_name :=
         from_option JString (simulator_name old) (upd_simulator_name u) |}
  /\ simulatorStatus (status_after opts empty_update s) = old
  /\ (let connected :=
        {| upd_last_error := None; upd_simulator_connected := Some true;
           upd_simulator_loaded := None; upd_simulator_name := None |} in
      let named :=
        {| upd_last_error := None; upd_simulator_connected := None;
           upd_simulator_loaded := None; upd_simulator_name := Some "MSFS" |} in
      simulatorStatus (status_after opts named (status_after opts connected s)) =
        {| last_error := last_error old;
           simulator_connected := JBool true;
           simulator_loaded := simulator_loaded old;
           simulator_name := JString "MSFS" |}).
Proof.
  assert (forall v s0,
    simulatorStatus (status_after opts v s0) =
    {| last_error :=
         from_option (fun p => JNumber p.1 p.2) (last_error (simulatorStatus s0))
                     (upd_last_error v);
       simulator_connected :=
         from_option JBool (simulator_connected (simulatorStatus s0))
                     (upd_simulator_connected v);
       simulator_loaded :=
         from_option JBool (simulator_loaded (simulatorStatus s0))
                     (upd_simulator_loaded v);
       simulator_name :=
         from_option JString (simulator_name (simulatorStatus s0))
                     (upd_simulator_name v) |}) as Hgen.
  { intros v s0. unfold status_after.
    rewrite status_after_Status by reflexivity.
    destruct v as [[[m e]|] [b1|] [b2|] [n|]]; reflexivity. }
  cbv zeta. split; [apply Hgen|]. split.
  - rewrite Hgen. by destruct (simulatorStatus s).
  - rewrite !Hgen. reflexivity.
Qed.

(** C10: in the merge a field that is present with the value [null] is
    treated as an absent one, the previous value stays; a field that is
    present with the value [false] is taken. *)
Theorem status_merge_null_retained opts data s :
  truthy data = true ->
  let old := simulatorStatus s in
  let new := simulatorStatus (snd (handleMessage opts (envelope "Status" data) s)) in
  (prop data "last_error" = JNull -> last_error new = last_error old)
  /\ (prop data "simulator_connected" = JNull ->
        simulator_connected new = simulator_connected old)
  /\ (prop data "simulator_loaded" = JNull ->
        simulator_loaded new = simulator_loaded old)
  /\ (prop data "simulator_name" = JNull ->
        simulator_name new = simulator_name old)
  /\ (prop data "simulator_connected" = JBool false ->
        simulator_connected new = JBool false)
  /\ (prop data "simulator_loaded" = JBool false ->
        simulator_loaded new = JBool false).
Proof.
  intros Ht. cbv zeta. rewrite status_after_Status by exact Ht.
  cbn [last_error simulator_connected simulator_loaded simulator_name].
  repeat split; intros ->; reflexivity.
Qed.

Lemma status_merge_null_retained_witness :
  simulator_name
    (simulatorStatus
       (snd (handleMessage silent (envelope "Status" null_name_update) flying)))
  = JString "MSFS"
  /\ simulator_connected
       (simulatorStatus
          (snd (handleMessage silent (envelope "Status" null_name_update) flying)))
     = JBool false.
Proof.
  pose proof (status_merge_null_retained silent null_name_update flying eq_refl)
    as H.
  cbv zeta in H. destruct H as (_ & _ & _ & Hn & Hc & _).
  split; [exact (Hn eq_refl) | exact (Hc eq_refl)].
Defined.

(** *** Exceptions raised by callbacks *)



Lemma handleMessage_AircraftData opts data s :
  truthy data = true ->
  handleMessage opts (envelope "AircraftData" data) s =
  call (onAircraftData opts) AircraftDataCall
       (coalesce (prop data "Aircraft") data) s.
Proof.
  intros Ht. unfold handleMessage, envelope.
  rewrite !member_object. eval_prop. rewrite !bind_lift. eval_is_string.
  rewrite Ht. cbn [negb]. by rewrite (member_truthy data) by exact Ht.
Qed.

Lemma on_message_unfold opts raw s :
  on_message opts raw s =
  match decode_and_dispatch opts raw s with
  | (Normal _, s') => (Normal tt, s')
  | (Abrupt t, s') => call (onError opts) ErrorCall (as_Error t) s'
  end.
Proof.
  unfold on_message, try_catch, decode_and_dispatch.
  by destruct ((lift (parseMessage raw) ≫= handleMessage opts) s) as [[[]|t] s'].
Qed.







(** *** Outbound requests *)

Lemma send_open opts nts so data s ws :
  client s = Some ws -> readyState s !! ws = Some OPEN ->
  forall text,
    match data with
    | JString str => Some str
    | _ => JSON_stringify nts data
    end = Some text ->
    sends_first ws text s (snd (send opts nts so data s)).
Proof.
  intros Hc Hr text Htext. unfold send, sends_first.
  unfold mbind, M_bind, bind, get. rewrite Hc, Hr. cbn [socket_is_open negb].
  unfold try_catch, socket_send, mbind, M_bind, bind, log, lift.
  rewrite Htext, Hc.
  destruct (so ws (Some text)) as [[]|t]; cbn.
  - by exists []%list.
  - destruct (onError opts) as [g|]; cbn.
    + unfold mbind, M_bind, bind, log, lift. cbn.
      destruct (g (as_Error t)); cbn; eexists; by rewrite <- app_assoc.
    + by exists []%list.
Qed.

(** C7: each of the three requests, serialised and decoded again, gives
    back the envelope that was built, with its type and data; and the text
    a builder hands to an open socket is that serialisation. *)
Theorem request_round_trip nts :
  Forall (fun e => exists text,
            JSON_stringify nts e = Some text
            /\ exists env, parseMessage (RawString text) = Normal env
                 /\ env = e
                 /\ prop env "type" = prop e "type"
                 /\ prop env "data" = prop e "data")
         canonical_requests
  /\ prop requestAircraftData_envelope "type" = JString "request"
  /\ prop requestAircraftData_envelope "data" = JObject [("type", JString "AircraftData")]
  /\ prop requestSimulatorStatus_envelope "type" = JString "Status"
  /\ prop requestSimulatorStatus_envelope "data" = JObject []
  /\ prop ping_envelope "type" = JString "ping"
  /\ prop ping_envelope "data" = JUndefined
  /\ (forall opts so s ws,
        client s = Some ws -> readyState s !! ws = Some OPEN ->
        (exists text, sends_first ws text s (snd (requestAircraftData opts nts so s))
           /\ parseMessage (RawString text) = Normal requestAircraftData_envelope)
        /\ (exists text, sends_first ws text s (snd (requestSimulatorStatus opts nts so s))
              /\ parseMessage (RawString text) = Normal requestSimulatorStatus_envelope)
        /\ (exists text, sends_first ws text s (snd (ping opts nts so s))
              /\ parseMessage (RawString text) = Normal ping_envelope)).
Proof.
  split; [|repeat split; try reflexivity].
  - repeat constructor; eexists; (split; [reflexivity|]);
      eexists; (split; [vm_compute; reflexivity|]); repeat split.
  - eexists. split; [by apply send_open|]. vm_compute. reflexivity.
  - eexists. split; [by apply send_open|]. vm_compute. reflexivity.
  - eexists. split; [by apply send_open|]. vm_compute. reflexivity.
Qed.

Lemma request_round_trip_witness :
  exists text,
    sends_first 1%nat text attached
      (snd (ping silent integer_toString accepting attached))
    /\ parseMessage (RawString text) = Normal ping_envelope.
Proof.
  destruct (request_round_trip integer_toString)
    as (_ & _ & _ & _ & _ & _ & _ & H).
  destruct (H silent accepting attached 1%nat eq_refl eq_refl) as (_ & _ & Hp).
  exact Hp.
Defined.

(** ** Connection manager: theorems *)

Section Frame.

Context {I : State -> Prop}.

Lemma preserves_ret {A} (a : A) : preserves I (ret a).
Proof. by intros s. Qed.

Lemma preserves_lift {A} (c : Completion A) : preserves I (lift c).
Proof. by intros s. Qed.

Lemma preserves_get : preserves I get.
Proof. by intros s. Qed.

Lemma preserves_bind {A B} (m : M A) (k : A -> M B) :
  preserves I m -> (forall a, preserves I (k a)) -> preserves I (m ≫= k).
Proof.
  intros Hm Hk s Hs. unfold mbind, M_bind, bind.
  specialize (Hm s Hs). destruct (m s) as [[a|t] s']; [|exact Hm].
  by apply Hk.
Qed.

Lemma preserves_try_catch {A} (body : M A) (handler : Thrown -> M A) :
  preserves I body -> (forall t, preserves I (handler t)) ->
  preserves I (try_catch body handler).
Proof.
  intros Hb Hh s Hs. unfold try_catch.
  specialize (Hb s Hs). destruct (body s) as [[a|t] s']; [exact Hb|].
  by apply Hh.
Qed.

Lemma preserves_call {A} (cb : Callback A) tag (a : A) :
  preserves I (log (Invoke (tag a))) -> preserves I (call cb tag a).
Proof.
  intros Hl. destruct cb as [f|]; [|apply preserves_ret].
  apply preserves_bind; [exact Hl | intros _; apply preserves_lift].
Qed.

End Frame.

Ltac preserves_step :=
  first
    [ apply preserves_ret
    | apply preserves_lift
    | apply preserves_get
    | apply preserves_bind; [|intros ?]
    | apply preserves_try_catch; [|intros ?]
    | apply preserves_call
    | match goal with
      | |- preserves _ (if ?b then _ else _) => destruct b
      | |- preserves _ (match ?x with _ => _ end) => destruct x
      end ].

(** What touches only the simulator status and the trace. *)
Section Dispatch_frame.

Variable I : State -> Prop.
Hypothesis keeps_log : forall e, benign e -> preserves I (log e).
Hypothesis keeps_status : forall st, preserves I (set_simulatorStatus st).

Variable opts : Options.
Variable nts : Z -> Z -> string.
Variable so : WebSocket -> option string -> Completion unit.

Ltac frame := repeat (preserves_step || (apply keeps_log; exact Logic.I)
                      || apply keeps_status).

Lemma handleMessage_preserves message : preserves I (handleMessage opts message).
Proof. unfold handleMessage. frame. Qed.

Lemma on_message_preserves raw : preserves I (on_message opts raw).
Proof.
  unfold on_message. frame.
Qed.

Lemma send_preserves data : preserves I (send opts nts so data).
Proof. unfold send, socket_send. frame. Qed.

Lemma on_listening_preserves : preserves I (on_listening opts nts).
Proof. unfold on_listening. frame. Qed.

Lemma on_error_preserves err : preserves I (on_socket_error opts err).
Proof. unfold on_socket_error. frame. Qed.

Lemma on_server_error_preserves err : preserves I (on_server_error opts err).
Proof. unfold on_server_error. frame. Qed.

Hypothesis keeps_client : forall c, preserves I (set_client c).
Hypothesis keeps_readyState : forall ws r, preserves I (set_readyState ws r).
Hypothesis keeps_listeners : forall ws, preserves I (add_listeners ws).

Ltac frame' := repeat (preserves_step || (apply keeps_log; exact Logic.I)
                       || apply keeps_status || apply keeps_client
                       || apply keeps_readyState || apply keeps_listeners).

Lemma deliver_preserves ev : preserves I (deliver opts nts ev).
Proof.
  destruct ev; cbn [deliver]; unfold when_registered.
  - apply on_listening_preserves.
  - unfold on_connection, socket_close. frame'.
  - frame'; apply on_message_preserves.
  - unfold on_close. frame'.
  - frame'; apply on_error_preserves.
  - apply on_server_error_preserves.
Qed.

Lemma close_preserves : preserves I close.
Proof. unfold close, socket_close. frame'. Qed.

Lemma perform_preserves a s : I s -> I (perform opts nts so a s).
Proof.
  destruct a; cbn [perform].
  - apply deliver_preserves.
  - apply send_preserves.
  - apply close_preserves.
Qed.

Lemma run_preserves actions : forall s, I s -> I (run opts nts so actions s).
Proof.
  induction actions as [|a actions IH]; intros s Hs; [exact Hs|].
  cbn. apply IH. by apply perform_preserves.
Qed.

End Dispatch_frame.

Lemma never_status_message_log e :
  benign e -> preserves never_status_message (log e).
Proof.
  intros He s Hs. unfold never_status_message, log. cbn.
  apply Forall_app. split; [exact Hs|]. by repeat constructor.
Qed.

Lemma run_cons opts nts so a actions s :
  run opts nts so (a :: actions) s
  = run opts nts so actions (perform opts nts so a s).
Proof. reflexivity. Qed.

Lemma with_onStatusMessage_perform f opts nts so a s :
  perform (with_onStatusMessage f opts) nts so a s = perform opts nts so a s.
Proof. destruct a as [[]| |]; reflexivity. Qed.

(** C9: nothing ever calls [onStatusMessage]: whatever the transport
    delivers and the application calls, no entry of the trace is a call of
    it, and a server given another [onStatusMessage], or none, goes through
    the same states; a [Status] frame is handled the same way. *)
Theorem onStatusMessage_never_invoked opts nts so :
  (forall actions, never_status_message (run opts nts so actions initial))
  /\ (forall f actions s,
        run (with_onStatusMessage f opts) nts so actions s
        = run opts nts so actions s)
  /\ (forall f raw s,
        on_message (with_onStatusMessage f opts) raw s = on_message opts raw s).
Proof.
  split; [|split].
  - intros actions. apply run_preserves; try (by intros ? ? ?).
    + apply never_status_message_log.
    + constructor.
  - intros f actions. induction actions as [|a actions IH]; intros s; [done|].
    by rewrite !run_cons, with_onStatusMessage_perform, IH.
  - reflexivity.
Qed.

Ltac unfold_server :=
  unfold on_connection, on_close, close, socket_close, call,
    mbind, M_bind, bind, get, log, lift, ret,
    set_client, set_readyState, add_listeners;
  cbn.

Lemma on_connection_state opts ws s :
  client (snd (on_connection opts ws s)) = Some ws
  /\ readyState (snd (on_connection opts ws s)) =
     match client s with
     | Some old => if socket_is_open (readyState s !! old)
                   then <[old := CLOSING]> (readyState s)
                   else readyState s
     | None => readyState s
     end.
Proof.
  unfold_server.
  destruct (client s) as [old|]; cbn;
    [destruct (readyState s !! old) as [[]|]; cbn|];
    destruct (onConnection opts) as [f|]; cbn;
    try destruct (f tt); done.
Qed.

Lemma on_connection_trace opts old ws s :
  client s = Some old ->
  trace (snd (on_connection opts ws s))
  = (trace s ++ supersession opts old ws)%list.
Proof.
  intros Hc. unfold supersession. unfold_server. rewrite Hc. cbn.
  destruct (readyState s !! old) as [[]|]; cbn;
    destruct (onConnection opts) as [f|]; cbn;
    try destruct (f tt); cbn; by rewrite ?Hc, <- ?app_assoc.
Qed.

Lemma on_close_stale opts ws s :
  client s <> Some ws -> on_close opts ws s = (Normal tt, s).
Proof.
  intros Hne. unfold on_close, mbind, M_bind, bind, get.
  by destruct (decide (client s = Some ws)).
Qed.

Lemma on_close_state opts ws s :
  readyState (snd (on_close opts ws s)) = readyState s
  /\ client (snd (on_close opts ws s))
     = if decide (client s = Some ws) then None else client s.
Proof.
  unfold_server. destruct (decide (client s = Some ws)); cbn; [|split; reflexivity].
  destruct (onDisconnect opts) as [f|]; cbn; try destruct (f tt); split; reflexivity.
Qed.

Lemma close_state s :
  client (snd (close s)) = None
  /\ readyState (snd (close s)) =
     match client s with
     | Some old => if socket_is_open (readyState s !! old)
                   then <[old := CLOSING]> (readyState s)
                   else readyState s
     | None => readyState s
     end.
Proof.
  unfold_server. destruct (client s) as [old|] eqn:E; cbn;
    [|split; [exact E | reflexivity]].
  destruct (readyState s !! old) as [[]|]; split; reflexivity.
Qed.

Lemma single_occupancy_perform opts nts so a s :
  single_occupancy s -> single_occupancy (perform opts nts so a s).
Proof.
  intros Inv.
  assert (forall {A} (m : M A),
    preserves (fun s' => client s' = client s /\ readyState s' = readyState s) m ->
    single_occupancy (snd (m s))) as Hframe.
  { intros A m Hm h. destruct (Hm s (conj eq_refl eq_refl)) as [-> ->].
    apply Inv. }
  assert (forall e, benign e ->
    preserves (fun s' => client s' = client s /\ readyState s' = readyState s)
              (log e)) as Hlog by (by intros e _ s0 H0).
  assert (forall st,
    preserves (fun s' => client s' = client s /\ readyState s' = readyState s)
              (set_simulatorStatus st)) as Hst by (by intros st s0 H0).
  destruct a as [ev| |]; cbn [perform].
  - destruct ev; cbn [deliver].
    + apply Hframe. by apply on_listening_preserves.
    + (* connection *)
      unfold mbind, M_bind, bind, set_readyState. cbn.
      match goal with |- single_occupancy (snd (on_connection _ _ ?s1)) =>
        destruct (on_connection_state opts ws s1) as [Hc Hr] end.
      intros h Hh. rewrite Hc. rewrite Hr in Hh. cbn in Hh.
      destruct (decide (h = ws)) as [->|Hne]; [done|]. exfalso.
      destruct (client s) as [old|] eqn:Hold.
      * destruct (socket_is_open (<[ws:=OPEN]> (readyState s) !! old)) eqn:Ho.
        -- destruct (decide (h = old)) as [->|Hne'];
             [by rewrite lookup_insert_eq in Hh|].
           rewrite !lookup_insert_ne in Hh by done.
           apply Inv in Hh. congruence.
        -- rewrite lookup_insert_ne in Hh by done.
           pose proof (Inv h Hh) as Hcl. simplify_eq.
           rewrite lookup_insert_ne, Hh in Ho by done. discriminate Ho.
      * rewrite lookup_insert_ne in Hh by done. apply Inv in Hh. congruence.
    + unfold when_registered, mbind, M_bind, bind, get.
      destruct (decide (ws ∈ listeners s)); [|exact Inv].
      apply Hframe. by apply on_message_preserves.
    + (* close event *)
      unfold when_registered, mbind, M_bind, bind, get, set_readyState. cbn.
      match goal with |- context [decide ?P] => destruct (decide P) end.
      * match goal with |- single_occupancy (snd (on_close _ _ ?s1)) =>
          destruct (on_close_state opts ws s1) as [Hr Hc] end.
        intros h Hh. rewrite Hc. rewrite Hr in Hh. cbn in *.
        destruct (decide (h = ws)) as [->|Hne];
          [by rewrite lookup_insert_eq in Hh|].
        rewrite lookup_insert_ne in Hh by done. pose proof (Inv h Hh) as Hcl.
        destruct (decide (client s = Some ws)); [congruence | done].
      * intros h Hh. cbn in *.
        destruct (decide (h = ws)) as [->|Hne];
          [by rewrite lookup_insert_eq in Hh|].
        rewrite lookup_insert_ne in Hh by done. by apply Inv.
    + unfold when_registered, mbind, M_bind, bind, get.
      destruct (decide (ws ∈ listeners s)); [|exact Inv].
      apply Hframe. by apply on_error_preserves.
    + apply Hframe. by apply on_server_error_preserves.
  - apply Hframe. by apply send_preserves.
  - destruct (close_state s) as [Hc Hr].
    intros h Hh. exfalso. rewrite Hr in Hh.
    destruct (client s) as [old|] eqn:Hold.
    + destruct (socket_is_open (readyState s !! old)) eqn:Ho.
      * destruct (decide (h = old)) as [->|Hne];
          [by rewrite lookup_insert_eq in Hh|].
        rewrite lookup_insert_ne in Hh by done. apply Inv in Hh. congruence.
      * pose proof (Inv h Hh) as Hcl. simplify_eq.
        rewrite Hh in Ho. discriminate Ho.
    + apply Inv in Hh. congruence.
Qed.

Lemma single_occupancy_run opts nts so actions : forall s,
  single_occupancy s -> single_occupancy (run opts nts so actions s).
Proof.
  induction actions as [|a actions IH]; intros s Hs; [exact Hs|].
  cbn. apply IH. by apply single_occupancy_perform.
Qed.

(** C1: at most one peer is live: after any sequence of transport events
    and calls, every socket that is open is the current client.  When a
    connection arrives while a peer is attached, the peer is closed with
    code 1000 and reason [New client connected] while it is still the
    client, then the new socket becomes the client, then the connection
    callback fires.  A close event of a socket that is not the current
    client changes nothing and fires no callback. *)
Theorem single_client opts nts so :
  (forall actions, single_occupancy (run opts nts so actions initial))
  /\ (forall s old ws,
        client s = Some old ->
        client (snd (on_connection opts ws s)) = Some ws
        /\ trace (snd (on_connection opts ws s))
           = (trace s ++ supersession opts old ws)%list)
  /\ (forall s ws,
        client s <> Some ws ->
        on_close opts ws s = (Normal tt, s)
        /\ client (snd (deliver opts nts (EvClose ws) s)) = client s
        /\ trace (snd (deliver opts nts (EvClose ws) s)) = trace s).
Proof.
  split; [|split].
  - intros actions. apply single_occupancy_run. intros h Hh.
    unfold initial in Hh. cbn [readyState] in Hh.
    by rewrite lookup_empty in Hh.
  - intros s old ws Hc. split.
    + apply on_connection_state.
    + by apply on_connection_trace.
  - intros s ws Hne. split; [by apply on_close_stale|].
    cbn [deliver]. unfold when_registered, mbind, M_bind, bind, get,
      set_readyState. cbn.
    match goal with |- context [decide ?P] => destruct (decide P) end; [|done].
    rewrite on_close_stale by done. done.
Qed.

Lemma single_client_witness :
  client (snd (on_connection pong_throws 2%nat attached)) = Some 2%nat
  /\ trace (snd (on_connection pong_throws 2%nat attached))
     = (trace attached ++ supersession pong_throws 1%nat 2%nat)%list.
Proof.
  exact (proj1 (proj2 (single_client pong_throws integer_toString accepting))
           attached 1%nat 2%nat eq_refl).
Defined.

(** ** Further properties of the status taxonomy *)

Lemma prefix_append p s : String.prefix p (p ++ s) = true.
Proof.
  induction p as [|c p IH].
  - change (EmptyString ++ s) with s. by destruct s.
  - change (String c p ++ s) with (String c (p ++ s)).
    cbn [String.prefix].
    destruct (Ascii.ascii_dec c c) as [_|Hne]; [exact IH | congruence].
Qed.

Lemma description_of_member c :
  exists text, getStatusCodeDescription (StatusCode_value c) = Some text
               /\ String.prefix "Unknown status code: " text = false.
Proof. destruct c; eexists; split; reflexivity. Qed.

(** X1: [getStatusCodeDescription] always yields a string, never
    [undefined]: a code that passes [isValidStatusCode] gets its registered
    text, any other code gets [Unknown status code: ] followed by the code
    itself, and the description starts with that fallback text exactly when
    the code is unknown. *)
Theorem description_total code :
  exists text,
    getStatusCodeDescription code = Some text
    /\ (isValidStatusCode code = false -> text = "Unknown status code: " ++ code)
    /\ (String.prefix "Unknown status code: " text = true
        <-> isValidStatusCode code = false).
Proof.
  destruct (isValidStatusCode code) eqn:Hv.
  - apply isValidStatusCode_iff in Hv as [c ->].
    destruct (description_of_member c) as (text & Ht & Hp).
    exists text. rewrite Hp. repeat split; try done.
  - exists ("Unknown status code: " ++ code).
    unfold getStatusCodeDescription. rewrite Hv, prefix_append. by repeat split.
Qed.

Lemma category_of_decimal n t :
  starts_with_digit t = false ->
  getStatusCodeCategory (decimal n ++ t) =
  if (200 <=? n) && (n <? 300) then Some SUCCESS
  else if (400 <=? n) && (n <? 500) then Some CLIENT_ERROR
  else if (500 <=? n) && (n <? 600) then Some SERVER_ERROR
  else if (600 <=? n) && (n <? 700) then Some SIMULATOR
  else if (900 <=? n) && (n <? 1000) then Some CUSTOM
  else None.
Proof.
  intros Ht. unfold getStatusCodeCategory. by rewrite parseInt_decimal.
Qed.

(** X2: on the numeral of an integer [n] (followed by anything that does
    not go on with a digit) [isSuccessStatusCode] holds exactly for
    [200 <= n < 300], [isErrorStatusCode] exactly for [400 <= n < 600] and
    [isSimulatorStatusCode] exactly for [600 <= n < 700]; custom codes
    [900 .. 999] satisfy none of the three. *)
Theorem predicates_by_range n t :
  starts_with_digit t = false ->
  (isSuccessStatusCode (decimal n ++ t) = true <-> 200 <= n < 300)
  /\ (isErrorStatusCode (decimal n ++ t) = true <-> 400 <= n < 600)
  /\ (isSimulatorStatusCode (decimal n ++ t) = true <-> 600 <= n < 700).
Proof.
  intros Ht.
  unfold isSuccessStatusCode, isErrorStatusCode, isSimulatorStatusCode.
  rewrite category_of_decimal by exact Ht.
  repeat match goal with
         | |- context [?a <=? ?b] => destruct (Z.leb_spec a b)
         | |- context [?a <? ?b] => destruct (Z.ltb_spec a b)
         end; cbn [andb]; repeat split; intros; first [lia | done].
Qed.

Lemma predicates_by_range_witness :
  (isSuccessStatusCode (decimal 503 ++ " ") = true <-> 200 <= 503 < 300)
  /\ (isErrorStatusCode (decimal 503 ++ " ") = true <-> 400 <= 503 < 600)
  /\ (isSimulatorStatusCode (decimal 503 ++ " ") = true <-> 600 <= 503 < 700).
Proof. exact (predicates_by_range 503 " " eq_refl). Defined.

(** X3: the enum has no two members with the same string, and every
    member's string is read back by [parseInt] as a three-digit number whose
    category is the one its group in the enum names. *)
Theorem enum_values_distinct :
  NoDup Object_values_StatusCode
  /\ (forall c1 c2, StatusCode_value c1 = StatusCode_value c2 -> c1 = c2)
  /\ (forall c, exists n, parseInt (StatusCode_value c) = Int n
                          /\ 100 <= n <= 999
                          /\ StatusCode_value c = decimal n
                          /\ getStatusCodeCategory (StatusCode_value c)
                             = Some (StatusCode_group c)).
Proof.
  split; [|split].
  - unfold Object_values_StatusCode. cbn.
    repeat (apply NoDup_cons; split;
            [intros H; repeat (apply elem_of_cons in H as [H|H];
                                 [discriminate H|]);
             by apply elem_of_nil in H|]).
    apply NoDup_nil_2.
  - intros c1 c2 H. destruct c1; destruct c2; first [reflexivity | discriminate H].
  - intros c. exists (read_digits 0 (StatusCode_value c)).
    destruct c; (split; [reflexivity|]); (split; [by vm_compute|]);
      split; reflexivity.
Qed.

(** ** Further properties of [send] and [close] *)

Lemma not_connected_cases s :
  isClientConnected s = false ->
  client s = None
  \/ exists ws, client s = Some ws /\ socket_is_open (readyState s !! ws) = false.
Proof.
  unfold isClientConnected. destruct (client s) as [ws|]; [|by left].
  intros H. right. by exists ws.
Qed.

Lemma send_closed opts nts so data s :
  isClientConnected s = false -> send opts nts so data s = (Normal false, s).
Proof.
  intros H. unfold send, mbind, M_bind, bind, get.
  destruct (not_connected_cases s H) as [->|(ws & -> & ->)]; reflexivity.
Qed.

(** X4: with no client attached, or with a client whose socket is not
    open, [send] and the three request builders return [false] and do
    nothing else: no socket is touched, no callback runs, the state is the
    same. *)
Theorem send_without_open_client opts nts so s :
  isClientConnected s = false ->
  (forall data, send opts nts so data s = (Normal false, s))
  /\ requestAircraftData opts nts so s = (Normal false, s)
  /\ requestSimulatorStatus opts nts so s = (Normal false, s)
  /\ ping opts nts so s = (Normal false, s).
Proof.
  intros H. repeat split; intros; by apply send_closed.
Qed.

Lemma send_without_open_client_witness :
  (forall data, send pong_throws integer_toString accepting data initial
                = (Normal false, initial))
  /\ requestAircraftData pong_throws integer_toString accepting initial
     = (Normal false, initial)
  /\ requestSimulatorStatus pong_throws integer_toString accepting initial
     = (Normal false, initial)
  /\ ping pong_throws integer_toString accepting initial
     = (Normal false, initial).
Proof.
  exact (send_without_open_client pong_throws integer_toString accepting
           initial eq_refl).
Defined.

Lemma send_connected opts nts so data s ws :
  client s = Some ws -> readyState s !! ws = Some OPEN ->
  send opts nts so data s =
  match so ws (message_of nts data) with
  | Normal _ => (Normal true, logged (SocketSend ws (message_of nts data)) s)
  | Abrupt t =>
      (call (onError opts) ErrorCall (as_Error t);; ret false)
        (logged (SocketSend ws (message_of nts data)) s)
  end.
Proof.
  intros Hc Hr. unfold send, mbind, M_bind, bind, get. rewrite Hc, Hr.
  cbn [socket_is_open negb]. unfold try_catch, socket_send, mbind, M_bind,
    bind, lift, logged, message_of.
  destruct (log _ s) as [[[]|t0] s1] eqn:Hl; [|discriminate Hl].
  cbn [snd]. by destruct (so ws _) as [[]|t].
Qed.

Lemma connected_cases s :
  isClientConnected s = true ->
  exists ws, client s = Some ws /\ readyState s !! ws = Some OPEN.
Proof.
  unfold isClientConnected. destruct (client s) as [ws|]; [|discriminate].
  intros H. exists ws. split; [done|].
  by destruct (readyState s !! ws) as [[]|].
Qed.

Lemma call_false_not_true {A} (cb : Callback A) tag a s :
  fst ((call cb tag a;; ret false) s) <> Normal true.
Proof.
  unfold mbind, M_bind, bind.
  destruct (call cb tag a s) as [[[]|t] s']; cbn; congruence.
Qed.

(** X5: [send] returns [true] only after a hand-off: a client is attached
    with an open socket, the socket took the message (the string itself for
    a string, the JSON text otherwise) without throwing, and the only
    change is that one send. *)
Theorem send_true_means_delivered opts nts so data s :
  fst (send opts nts so data s) = Normal true ->
  exists ws,
    client s = Some ws
    /\ readyState s !! ws = Some OPEN
    /\ so ws (message_of nts data) = Normal tt
    /\ snd (send opts nts so data s)
       = logged (SocketSend ws (message_of nts data)) s.
Proof.
  intros H. destruct (isClientConnected s) eqn:Hconn.
  - destruct (connected_cases s Hconn) as (ws & Hc & Hr).
    exists ws. rewrite (send_connected opts nts so data s ws Hc Hr) in *.
    destruct (so ws (message_of nts data)) as [[]|t]; [done|].
    by apply call_false_not_true in H.
  - rewrite send_closed in H by done. discriminate H.
Qed.

Lemma send_true_means_delivered_witness :
  exists ws,
    client attached = Some ws
    /\ readyState attached !! ws = Some OPEN
    /\ accepting ws (message_of integer_toString ping_envelope) = Normal tt
    /\ snd (send silent integer_toString accepting ping_envelope attached)
       = logged (SocketSend ws (message_of integer_toString ping_envelope))
                attached.
Proof.
  exact (send_true_means_delivered silent integer_toString accepting
           ping_envelope attached eq_refl).
Defined.



(** X7: a text that is already serialised goes out as it is: sending the
    JSON text of a value as a string does exactly what sending the value
    does. *)
Theorem send_serialised_text opts nts so data text s :
  typeof_string data = false ->
  JSON_stringify nts data = Some text ->
  send opts nts so (JString text) s = send opts nts so data s.
Proof.
  intros Hns Htext. destruct (isClientConnected s) eqn:Hconn.
  - destruct (connected_cases s Hconn) as (ws & Hc & Hr).
    rewrite !(send_connected opts nts so _ s ws Hc Hr).
    assert (message_of nts data = Some text) as ->
      by (by destruct data; try discriminate Hns).
    reflexivity.
  - by rewrite !send_closed.
Qed.

Lemma send_serialised_text_witness :
  send silent integer_toString accepting
       (JString (serialize integer_toString requestAircraftData_envelope))
       attached
  = send silent integer_toString accepting requestAircraftData_envelope attached.
Proof.
  exact (send_serialised_text silent integer_toString accepting
           requestAircraftData_envelope _ attached eq_refl eq_refl).
Defined.

Lemma close_unfold s :
  close s =
  (Normal tt,
   match client s with
   | Some ws =>
       logged ServerClose
         (snd (set_client None
                 (snd (socket_close ws 1000 "Server closing" s))))
   | None => logged ServerClose s
   end).
Proof.
  unfold close, mbind, M_bind, bind, get, logged.
  destruct (client s) as [ws|]; [|reflexivity].
  unfold socket_close, mbind, M_bind, bind, get, log, set_client,
    set_readyState, ret. cbn.
  by destruct (readyState s !! ws) as [[]|].
Qed.

Lemma close_trace s :
  trace (snd (close s))
  = (trace s
     ++ match client s with
        | Some ws => [{| at_client := Some ws;
                         what := SocketClose ws 1000 "Server closing" |}]
        | None => []
        end
     ++ [{| at_client := None; what := ServerClose |}])%list.
Proof.
  rewrite close_unfold. cbn [snd].
  destruct (client s) as [ws|] eqn:E.
  - unfold logged, socket_close, mbind, M_bind, bind, get, log, set_client,
      set_readyState, ret. cbn. rewrite E.
    destruct (readyState s !! ws) as [[]|]; cbn; by rewrite <- app_assoc.
  - unfold logged, log. cbn. by rewrite E.
Qed.

(** X8: [close()] always returns; afterwards no client is attached and
    [send] returns [false] without effect; the simulator status is kept; a
    client that was attached has been closed with code 1000 and reason
    [Server closing] before the listener is closed, and without a client
    only the listener is closed. *)
Theorem close_detaches opts nts so s :
  fst (close s) = Normal tt
  /\ client (snd (close s)) = None
  /\ isClientConnected (snd (close s)) = false
  /\ simulatorStatus (snd (close s)) = simulatorStatus s
  /\ (forall data,
        send opts nts so data (snd (close s)) = (Normal false, snd (close s)))
  /\ trace (snd (close s))
     = (trace s
        ++ match client s with
           | Some ws => [{| at_client := Some ws;
                            what := SocketClose ws 1000 "Server closing" |}]
           | None => []
           end
        ++ [{| at_client := None; what := ServerClose |}])%list.
Proof.
  assert (client (snd (close s)) = None) as Hc by apply close_state.
  assert (isClientConnected (snd (close s)) = false) as Hn
    by (unfold isClientConnected; by rewrite Hc).
  repeat split; try done.
  - by rewrite close_unfold.
  - rewrite close_unfold. cbn [snd]. destruct (client s) as [ws|]; [|done].
    unfold socket_close, mbind, M_bind, bind, get, log, set_client,
      set_readyState, ret. cbn.
    by destruct (readyState s !! ws) as [[]|].
  - intros data. by apply send_closed.
  - apply close_trace.
Qed.

(** ** Further properties of the dispatch *)

Lemma handleMessage_object opts props s :
  handleMessage opts (JObject props) s =
  (let type := prop (JObject props) "type" in
   let data := prop (JObject props) "data" in
   if is_string type "AircraftData" then
     if negb (truthy data) then ret tt
     else nested ← lift (member data "Aircraft");
          call (onAircraftData opts) AircraftDataCall (coalesce nested data)
   else if is_string type "Status" then
     if negb (truthy data) then ret tt
     else handleMessage opts (envelope "Status" data)
   else if is_string type "pong" then
     if negb (truthy data) then ret tt
     else call (onPong opts) PongCall data
   else if is_string type "Error" || is_string type "error" then
     call (onError opts) ErrorCall
       (NewError (if typeof_string data then data
                  else coalesce (member_opt data "message")
                                (JString "Unknown error")))
   else ret tt) s.
Proof.
  cbv zeta. unfold handleMessage at 1.
  rewrite !member_object, !bind_lift.
  destruct (is_string (prop (JObject props) "type") "AircraftData");
    [reflexivity|].
  destruct (is_string (prop (JObject props) "type") "Status"); [|reflexivity].
  destruct (truthy (prop (JObject props) "data")) eqn:Ht; [|reflexivity].
  cbn [negb]. rewrite handleMessage_Status by exact Ht.
  rewrite !(member_truthy (prop (JObject props) "data")) by exact Ht.
  reflexivity.
Qed.

(** X9: a frame of type [AircraftData], [Status] or [pong] whose data is
    missing or falsy ([null], [false], [0], the empty string) is dropped:
    nothing is called and the state stays the same. *)
Theorem falsy_data_dropped opts message ty s :
  prop message "type" = JString ty ->
  In ty ["AircraftData"; "Status"; "pong"] ->
  truthy (prop message "data") = false ->
  handleMessage opts message s = (Normal tt, s).
Proof.
  intros Hty Hin Hf. destruct (string_type_object _ _ Hty) as [props ->].
  rewrite handleMessage_object. cbv zeta. rewrite Hty, Hf.
  cbn in Hin. destruct Hin as [<-|[<-|[<-|[]]]]; reflexivity.
Qed.

Lemma falsy_data_dropped_witness :
  handleMessage pong_throws (envelope "pong" (JNumber 0 0)) attached
  = (Normal tt, attached).
Proof.
  apply (falsy_data_dropped pong_throws (envelope "pong" (JNumber 0 0)) "pong");
    [reflexivity | cbn; tauto | reflexivity].
Defined.

(** X10: the nested and the flat form of aircraft data reach the callback
    as the same payload: a frame whose data holds the payload under
    [Aircraft] does exactly what a frame whose data is the payload does,
    namely call the aircraft-data callback with the payload. *)
Theorem aircraft_nested_or_flat opts payload s :
  truthy payload = true ->
  nullish (prop payload "Aircraft") = true ->
  handleMessage opts (envelope "AircraftData" (JObject [("Aircraft", payload)])) s
  = call (onAircraftData opts) AircraftDataCall payload s
  /\ handleMessage opts (envelope "AircraftData" payload) s
     = call (onAircraftData opts) AircraftDataCall payload s.
Proof.
  intros Ht Hn. rewrite !handleMessage_AircraftData by done. split.
  - eval_prop. unfold coalesce. by rewrite (truthy_not_nullish _ Ht).
  - unfold coalesce. by rewrite Hn.
Qed.

Lemma aircraft_nested_or_flat_witness :
  handleMessage silent
    (envelope "AircraftData" (JObject [("Aircraft", altitude_2200)])) attached
  = call (onAircraftData silent) AircraftDataCall altitude_2200 attached
  /\ handleMessage silent (envelope "AircraftData" altitude_2200) attached
     = call (onAircraftData silent) AircraftDataCall altitude_2200 attached.
Proof.
  exact (aircraft_nested_or_flat silent altitude_2200 attached eq_refl eq_refl).
Defined.



(** X12: a [Status] frame with truthy data calls the simulator-status
    callback once, even when no field changed, and what it passes is the
    status that is stored: [getSimulatorStatus] returns the same record
    afterwards. *)
Theorem status_callback_gets_stored_status opts data f s :
  truthy data = true ->
  onSimulatorStatus opts = Some f ->
  let s' := snd (handleMessage opts (envelope "Status" data) s) in
  fst (handleMessage opts (envelope "Status" data) s) = f (getSimulatorStatus s')
  /\ trace s' = (trace s
                 ++ [{| at_client := client s;
                        what := Invoke (SimulatorStatusCall
                                          (getSimulatorStatus s')) |}])%list.
Proof.
  intros Ht Hf. cbv zeta. rewrite handleMessage_Status by exact Ht.
  rewrite Hf. unfold mbind, M_bind, bind, set_simulatorStatus, get, call,
    log, lift, ret, getSimulatorStatus. cbn.
  by destruct (f _).
Qed.

Lemma status_callback_gets_stored_status_witness :
  let s' := snd (handleMessage pong_throws
                   (envelope "Status" null_name_update) flying) in
  fst (handleMessage pong_throws (envelope "Status" null_name_update) flying)
  = Normal tt
  /\ trace s' = (trace flying
                 ++ [{| at_client := client flying;
                        what := Invoke (SimulatorStatusCall
                                          (getSimulatorStatus s')) |}])%list.
Proof.
  exact (status_callback_gets_stored_status pong_throws null_name_update
           (fun _ => Normal tt) flying eq_refl eq_refl).
Defined.

(** X13: [isSimulatorConnected] and [isSimulatorLoaded] test for the
    boolean [true] itself: after a [Status] frame they follow a boolean
    sent for the field, keep their value when the field is missing or
    [null], and are [false] after any other value, a truthy one such as
    [1] or the string [true] included. *)
Theorem simulator_flags_strict opts data s :
  truthy data = true ->
  let s' := snd (handleMessage opts (envelope "Status" data) s) in
  isSimulatorConnected s' =
    match prop data "simulator_connected" with
    | JBool b => b
    | JNull | JUndefined => isSimulatorConnected s
    | _ => false
    end
  /\ isSimulatorLoaded s' =
    match prop data "simulator_loaded" with
    | JBool b => b
    | JNull | JUndefined => isSimulatorLoaded s
    | _ => false
    end
  /\ getSimulatorName s'
     = coalesce (prop data "simulator_name") (getSimulatorName s).
Proof.
  intros Ht. cbv zeta.
  unfold isSimulatorConnected, isSimulatorLoaded, getSimulatorName.
  rewrite status_after_Status by exact Ht.
  cbn [simulator_connected simulator_loaded simulator_name].
  repeat split.
  - by destruct (prop data "simulator_connected") as [| |[]| | | |].
  - by destruct (prop data "simulator_loaded") as [| |[]| | | |].
Qed.

Lemma simulator_flags_strict_witness :
  isSimulatorConnected
    (snd (handleMessage silent
            (envelope "Status"
               (JObject [("simulator_connected", JNumber 1 0)])) flying))
  = false.
Proof.
  exact (proj1 (simulator_flags_strict silent
                  (JObject [("simulator_connected", JNumber 1 0)])
                  flying eq_refl)).
Defined.

(** ** Further properties of the connection manager *)

Section General_frame.

Variable I : State -> Prop.
Variable ok : Effect -> Prop.
Hypothesis keeps_log : forall e, ok e -> preserves I (log e).
Hypothesis ok_invoke : forall c, ok (Invoke c).
Hypothesis keeps_client : forall c, preserves I (set_client c).
Hypothesis keeps_readyState : forall ws r, preserves I (set_readyState ws r).
Hypothesis keeps_listeners : forall ws, preserves I (add_listeners ws).

Variable opts : Options.
Variable nts : Z -> Z -> string.
Variable so : WebSocket -> option string -> Completion unit.

Ltac gframe :=
  repeat (preserves_step
          || (apply keeps_log; apply ok_invoke)
          || apply keeps_client || apply keeps_readyState
          || apply keeps_listeners).

Lemma call_kept {A} (cb : Callback A) tag a : preserves I (call cb tag a).
Proof. gframe. Qed.

Lemma on_listening_kept : preserves I (on_listening opts nts).
Proof. unfold on_listening. gframe. Qed.

Lemma on_close_kept ws : preserves I (on_close opts ws).
Proof. unfold on_close. gframe. Qed.

Lemma on_socket_error_kept err : preserves I (on_socket_error opts err).
Proof. unfold on_socket_error. gframe. Qed.

Lemma on_server_error_kept err : preserves I (on_server_error opts err).
Proof. unfold on_server_error. gframe. Qed.

Lemma on_message_kept raw :
  (forall st, preserves I (set_simulatorStatus st)) ->
  preserves I (on_message opts raw).
Proof.
  intros keeps_status. unfold on_message, handleMessage.
  repeat (preserves_step || (apply keeps_log; apply ok_invoke)
          || apply keeps_status).
Qed.

Section All_effects.

Hypothesis ok_all : forall e, ok e.

Ltac gframe' :=
  repeat (preserves_step
          || (apply keeps_log; apply ok_all)
          || apply keeps_client || apply keeps_readyState
          || apply keeps_listeners).

Lemma on_connection_kept ws : preserves I (on_connection opts ws).
Proof. unfold on_connection, socket_close. gframe'. Qed.

Lemma send_kept data : preserves I (send opts nts so data).
Proof. unfold send, socket_send. gframe'. Qed.

Lemma close_kept : preserves I close.
Proof. unfold close, socket_close. gframe'. Qed.

End All_effects.

End General_frame.

Lemma handleMessage_status_kept opts message ty s :
  prop message "type" = JString ty ->
  ~ (ty = "Status" /\ truthy (prop message "data") = true) ->
  simulatorStatus (snd (handleMessage opts message s)) = simulatorStatus s.
Proof.
  intros Hty Hnot. destruct (string_type_object _ _ Hty) as [props ->].
  rewrite handleMessage_object. cbv zeta. rewrite Hty.
  destruct (is_string (JString ty) "AircraftData").
  { destruct (truthy (prop (JObject props) "data")) eqn:Ht; [|reflexivity].
    cbn [negb]. rewrite (member_truthy _ _ Ht), bind_lift.
    apply call_simulatorStatus. }
  destruct (is_string (JString ty) "Status") eqn:Hs.
  { destruct (truthy (prop (JObject props) "data")) eqn:Ht; [|reflexivity].
    exfalso. apply Hnot. split; [|done]. cbn in Hs.
    by apply String.eqb_eq in Hs. }
  destruct (is_string (JString ty) "pong").
  { destruct (truthy (prop (JObject props) "data")); [|reflexivity].
    apply call_simulatorStatus. }
  destruct (is_string (JString ty) "Error" || is_string (JString ty) "error");
    [apply call_simulatorStatus | reflexivity].
Qed.

Lemma on_message_status_kept opts raw message ty s :
  parseMessage raw = Normal message ->
  prop message "type" = JString ty ->
  ~ (ty = "Status" /\ truthy (prop message "data") = true) ->
  simulatorStatus (snd (on_message opts raw s)) = simulatorStatus s.
Proof.
  intros Hp Hty Hnot. rewrite on_message_unfold.
  unfold decode_and_dispatch. rewrite Hp, bind_lift.
  pose proof (handleMessage_status_kept opts message ty s Hty Hnot) as H.
  destruct (handleMessage opts message s) as [[[]|t] s']; cbn [snd] in *;
    [exact H|].
  by rewrite call_simulatorStatus.
Qed.

(** X14: the simulator status is changed by nothing but a [Status] frame
    with truthy data that reaches the message handler: connections, peer
    disconnects, errors, [send] and [close()] all leave it as it is, so it
    outlives the peer that reported it. *)
Theorem status_changed_only_by_Status_frame opts nts so a s :
  simulatorStatus (perform opts nts so a s) <> simulatorStatus s ->
  exists ws raw message,
    a = Deliver (EvMessage ws raw)
    /\ ws ∈ listeners s
    /\ parseMessage raw = Normal message
    /\ prop message "type" = JString "Status"
    /\ truthy (prop message "data") = true.
Proof.
  intros Hne.
  set (I := fun s' : State => simulatorStatus s' = simulatorStatus s).
  assert (forall e, True -> preserves I (log e)) as Hlog by (by intros e _ s0).
  assert (forall c, preserves I (set_client c)) as Hcl by (by intros c s0).
  assert (forall ws r, preserves I (set_readyState ws r)) as Hrs
    by (by intros ws r s0).
  assert (forall ws, preserves I (add_listeners ws)) as Hls by (by intros ws s0).
  assert (forall {A} (m : M A), preserves I m ->
            simulatorStatus (snd (m s)) = simulatorStatus s) as Hpres
    by (intros A m Hm; by apply Hm).
  destruct a as [ev|data|]; cbn [perform] in Hne.
  - destruct ev as [|ws|ws raw|ws|ws err|err]; cbn [deliver] in Hne.
    + exfalso. apply Hne, Hpres.
      by eapply (on_listening_kept I (fun _ => True)).
    + exfalso. apply Hne, Hpres. apply preserves_bind; [apply Hrs|intros _].
      by eapply (on_connection_kept I (fun _ => True)).
    + unfold when_registered, mbind, M_bind, bind, get in Hne.
      destruct (decide (ws ∈ listeners s)) as [Hin|]; [|done].
      destruct (parseMessage_type raw) as (message & ty & Hp & Hty).
      destruct (String.eqb_spec ty "Status") as [->|Hty'];
        [destruct (truthy (prop message "data")) eqn:Ht|].
      * by exists ws, raw, message.
      * exfalso. apply Hne.
        apply (on_message_status_kept opts raw message "Status"); try done.
        intros [_ H]. congruence.
      * exfalso. apply Hne.
        apply (on_message_status_kept opts raw message ty); try done.
        by intros [H _].
    + exfalso. apply Hne, Hpres. apply preserves_bind; [apply Hrs|intros _].
      unfold when_registered.
      apply preserves_bind; [apply preserves_get|intros s0].
      destruct (decide (ws ∈ listeners s0)); [|apply preserves_ret].
      by eapply (on_close_kept I (fun _ => True)).
    + exfalso. apply Hne, Hpres. unfold when_registered.
      apply preserves_bind; [apply preserves_get|intros s0].
      destruct (decide (ws ∈ listeners s0)); [|apply preserves_ret].
      by eapply (on_socket_error_kept I (fun _ => True)).
    + exfalso. apply Hne, Hpres.
      by eapply (on_server_error_kept I (fun _ => True)).
  - exfalso. apply Hne, Hpres. by eapply (send_kept I (fun _ => True)).
  - exfalso. apply Hne, Hpres. by eapply (close_kept I (fun _ => True)).
Qed.

Lemma status_changed_only_by_Status_frame_witness :
  exists ws raw message,
    Deliver (EvMessage 1%nat (frame_of (envelope "Status" connected_update)))
    = Deliver (EvMessage ws raw)
    /\ ws ∈ listeners attached
    /\ parseMessage raw = Normal message
    /\ prop message "type" = JString "Status"
    /\ truthy (prop message "data") = true.
Proof.
  apply (status_changed_only_by_Status_frame silent integer_toString accepting
           (Deliver (EvMessage 1%nat (frame_of (envelope "Status" connected_update))))
           attached).
  intros H. vm_compute in H. discriminate H.
Defined.

Lemma deliver_connection_normal opts nts ws s :
  returns_normally (onConnection opts) ->
  exists s1,
    deliver opts nts (EvConnection ws) s = (Normal tt, s1)
    /\ client s1 = Some ws
    /\ listeners s1 = {[ws]} ∪ listeners s
    /\ readyState s1 !! ws
       = Some (if decide (client s = Some ws) then CLOSING else OPEN)
    /\ simulatorStatus s1 = simulatorStatus s.
Proof.
  intros Hok. cbn [deliver]. unfold_server. unfold returns_normally in Hok.
  destruct (client s) as [old|] eqn:Hc; cbn.
  - destruct (decide (old = ws)) as [->|Hne].
    + rewrite lookup_insert_eq. cbn.
      destruct (onConnection opts) as [f|] eqn:Hf; cbn;
        [rewrite (Hok f tt eq_refl); cbn|];
        eexists; (split; [reflexivity|]); cbn;
        rewrite lookup_insert_eq; by destruct (decide (Some ws = Some ws)).
    + rewrite lookup_insert_ne by done.
      destruct (readyState s !! old) as [[]|]; cbn;
        (destruct (onConnection opts) as [f|] eqn:Hf; cbn;
         [rewrite (Hok f tt eq_refl); cbn|]);
        eexists; (split; [reflexivity|]); cbn;
        rewrite ?(lookup_insert_ne _ old ws) by done;
        rewrite lookup_insert_eq;
        destruct (decide (Some old = Some ws)); by simplify_eq.
  - destruct (onConnection opts) as [f|] eqn:Hf; cbn;
      [rewrite (Hok f tt eq_refl); cbn|];
      eexists; (split; [reflexivity|]); cbn;
      rewrite lookup_insert_eq; by destruct (decide (None = Some ws)).
Qed.

(** X15: eviction does not silence the evicted peer: after [ws2] has
    replaced [ws1] as the client, a frame that still arrives from [ws1] is
    decoded and dispatched exactly as a frame from [ws2] is. *)
Theorem evicted_peer_still_heard opts nts ws1 ws2 raw s :
  returns_normally (onConnection opts) ->
  let s2 := snd (deliver opts nts (EvConnection ws2)
                   (snd (deliver opts nts (EvConnection ws1) s))) in
  client s2 = Some ws2
  /\ deliver opts nts (EvMessage ws1 raw) s2 = on_message opts raw s2
  /\ deliver opts nts (EvMessage ws2 raw) s2 = on_message opts raw s2.
Proof.
  intros Hok. cbv zeta.
  destruct (deliver_connection_normal opts nts ws1 s Hok)
    as (s1 & -> & _ & Hl1 & _).
  cbn [snd].
  destruct (deliver_connection_normal opts nts ws2 s1 Hok)
    as (s2 & -> & Hc2 & Hl2 & _).
  cbn [snd deliver]. unfold when_registered, mbind, M_bind, bind, get.
  split; [done|]. rewrite Hl2, Hl1.
  split; (destruct (decide _) as [_|Hn]; [done|]); exfalso; apply Hn;
    rewrite !elem_of_union, !elem_of_singleton; auto.
Qed.

Lemma evicted_peer_still_heard_witness :
  let s2 := snd (deliver silent integer_toString (EvConnection 2%nat)
                   (snd (deliver silent integer_toString (EvConnection 1%nat)
                                 initial))) in
  client s2 = Some 2%nat
  /\ deliver silent integer_toString (EvMessage 1%nat pong_frame) s2
     = on_message silent pong_frame s2
  /\ deliver silent integer_toString (EvMessage 2%nat pong_frame) s2
     = on_message silent pong_frame s2.
Proof.
  apply (evicted_peer_still_heard silent integer_toString 1%nat 2%nat
           pong_frame initial).
  intros f a H. discriminate H.
Defined.

(** X16: the socket handlers are registered only after the connection
    callback returns.  When that callback throws for a new socket, the
    socket is the client but has no handlers: its frames are not
    dispatched, and its close event does not detach it. *)
Theorem throwing_onConnection_leaves_socket_deaf opts nts f t ws s :
  onConnection opts = Some f -> f tt = Abrupt t ->
  ws ∉ listeners s ->
  let s1 := snd (deliver opts nts (EvConnection ws) s) in
  fst (deliver opts nts (EvConnection ws) s) = Abrupt t
  /\ client s1 = Some ws
  /\ (ws ∉ listeners s1)
  /\ (forall raw, deliver opts nts (EvMessage ws raw) s1 = (Normal tt, s1))
  /\ fst (deliver opts nts (EvClose ws) s1) = Normal tt
  /\ client (snd (deliver opts nts (EvClose ws) s1)) = Some ws
  /\ trace (snd (deliver opts nts (EvClose ws) s1)) = trace s1.
Proof.
  intros Hf Ht Hnot. cbv zeta.
  assert (exists s1, deliver opts nts (EvConnection ws) s = (Abrupt t, s1)
                     /\ client s1 = Some ws /\ listeners s1 = listeners s)
    as (s1 & -> & Hc & Hl).
  { cbn [deliver]. unfold_server. rewrite Hf.
    destruct (client s) as [old|]; cbn;
      [destruct (<[ws:=OPEN]> (readyState s) !! old) as [[]|]; cbn|];
      rewrite Ht; cbn; eexists; by repeat split. }
  cbn [fst snd deliver].
  unfold when_registered, mbind, M_bind, bind, get, set_readyState. cbn.
  rewrite Hl. destruct (decide (ws ∈ listeners s)) as [|_]; [done|].
  by repeat split.
Qed.

Lemma throwing_onConnection_leaves_socket_deaf_witness :
  let s1 := snd (deliver connection_throws integer_toString
                   (EvConnection 1%nat) initial) in
  fst (deliver connection_throws integer_toString (EvConnection 1%nat) initial)
  = Abrupt boom
  /\ client s1 = Some 1%nat
  /\ (1%nat ∉ listeners s1)
  /\ (forall raw, deliver connection_throws integer_toString
                    (EvMessage 1%nat raw) s1 = (Normal tt, s1))
  /\ fst (deliver connection_throws integer_toString (EvClose 1%nat) s1)
     = Normal tt
  /\ client (snd (deliver connection_throws integer_toString
                    (EvClose 1%nat) s1)) = Some 1%nat
  /\ trace (snd (deliver connection_throws integer_toString
                   (EvClose 1%nat) s1)) = trace s1.
Proof.
  apply (throwing_onConnection_leaves_socket_deaf connection_throws
           integer_toString (fun _ => Abrupt boom) boom 1%nat initial);
    [reflexivity | reflexivity | apply not_elem_of_empty].
Defined.

(** X17: a peer that connects and then goes away: while attached it is
    the client with an open socket; when its close event arrives the client
    is cleared first and the disconnect callback, if given, runs after
    that; the simulator status is the same throughout. *)
Theorem connect_then_disconnect opts nts ws s :
  returns_normally (onConnection opts) ->
  client s <> Some ws ->
  let s1 := snd (deliver opts nts (EvConnection ws) s) in
  let s2 := snd (deliver opts nts (EvClose ws) s1) in
  isClientConnected s1 = true
  /\ client s2 = None
  /\ isClientConnected s2 = false
  /\ trace s2 = (trace s1
                 ++ match onDisconnect opts with
                    | Some _ => [{| at_client := None;
                                    what := Invoke Disconnect |}]
                    | None => []
                    end)%list
  /\ simulatorStatus s2 = simulatorStatus s.
Proof.
  intros Hok Hne. cbv zeta.
  destruct (deliver_connection_normal opts nts ws s Hok)
    as (s1 & -> & Hc & Hl & Hr & Hst).
  cbn [snd]. destruct (decide (client s = Some ws)) as [|_]; [done|].
  split; [unfold isClientConnected; by rewrite Hc, Hr|].
  cbn [deliver]. unfold when_registered, mbind, M_bind, bind, get,
    set_readyState. cbn. rewrite Hl.
  destruct (decide (ws ∈ {[ws]} ∪ listeners s)) as [_|Hn];
    [|exfalso; apply Hn; rewrite elem_of_union, elem_of_singleton; auto].
  unfold on_close, mbind, M_bind, bind, get. cbn.
  destruct (decide (client s1 = Some ws)) as [_|]; [|done].
  unfold set_client, call, mbind, M_bind, bind, log, lift, ret. cbn.
  destruct (onDisconnect opts) as [g|]; cbn;
    [destruct (g tt); cbn|]; rewrite ?app_nil_r; by repeat split.
Qed.

Lemma connect_then_disconnect_witness :
  let s1 := snd (deliver pong_throws integer_toString (EvConnection 1%nat)
                         initial) in
  let s2 := snd (deliver pong_throws integer_toString (EvClose 1%nat) s1) in
  isClientConnected s1 = true
  /\ client s2 = None
  /\ isClientConnected s2 = false
  /\ trace s2 = (trace s1
                 ++ match onDisconnect pong_throws with
                    | Some _ => [{| at_client := None;
                                    what := Invoke Disconnect |}]
                    | None => []
                    end)%list
  /\ simulatorStatus s2 = simulatorStatus initial.
Proof.
  apply (connect_then_disconnect pong_throws integer_toString 1%nat initial).
  - intros f a H. injection H as <-. reflexivity.
  - discriminate.
Defined.

Lemma targets_log_invoke c : preserves targets_client_only (log (Invoke c)).
Proof.
  intros s Hs. unfold targets_client_only, log. cbn.
  apply Forall_app. split; [exact Hs|]. by repeat constructor.
Qed.

Lemma targets_on_connection opts ws :
  preserves targets_client_only (on_connection opts ws).
Proof.
  intros s Hs. unfold targets_client_only in *. unfold_server.
  destruct (client s) as [old|] eqn:E; cbn;
    [destruct (readyState s !! old) as [[]|]; cbn|];
    destruct (onConnection opts) as [f|]; cbn; try destruct (f tt); cbn;
    rewrite ?E; repeat (apply Forall_app; split); try exact Hs;
    repeat constructor; cbn; auto.
Qed.

Lemma targets_send opts nts so data :
  preserves targets_client_only (send opts nts so data).
Proof.
  intros s Hs. destruct (isClientConnected s) eqn:Hconn.
  - destruct (connected_cases s Hconn) as (ws & Hc & Hr).
    rewrite (send_connected opts nts so data s ws Hc Hr).
    assert (targets_client_only
              (logged (SocketSend ws (message_of nts data)) s)) as Hl.
    { unfold targets_client_only, logged, log. cbn.
      apply Forall_app. split; [exact Hs|]. by repeat constructor. }
    destruct (so ws (message_of nts data)) as [[]|t]; [exact Hl|].
    revert Hl. generalize (logged (SocketSend ws (message_of nts data)) s).
    change (preserves targets_client_only
              (call (onError opts) ErrorCall (as_Error t);; ret false)).
    apply preserves_bind; [|intros _; apply preserves_ret].
    apply preserves_call, targets_log_invoke.
  - by rewrite send_closed.
Qed.

Lemma targets_close : preserves targets_client_only close.
Proof.
  intros s Hs. unfold targets_client_only. rewrite close_trace.
  repeat (apply Forall_app; split); try exact Hs.
  - destruct (client s) as [ws|]; constructor; [cbn; auto | constructor].
  - by repeat constructor.
Qed.

(** X18: the server talks only to its client: in every trace reachable
    from the initial state, each message is handed to the socket that is
    the client at that moment, and each close the server issues is on the
    client of that moment, with code 1000 and the reason [New client
    connected] or [Server closing]. *)
Theorem only_the_client_is_addressed opts nts so actions :
  targets_client_only (run opts nts so actions initial).
Proof.
  assert (forall a s, targets_client_only s ->
                      targets_client_only (perform opts nts so a s)) as Hstep.
  { set (ok := fun e : Effect => match e with Invoke _ => True | _ => False end).
    assert (forall e, ok e -> preserves targets_client_only (log e)) as Hlog.
    { intros [c| | |] He; try destruct He. apply targets_log_invoke. }
    assert (forall c, ok (Invoke c)) as Hinv by done.
    assert (forall c, preserves targets_client_only (set_client c)) as Hcl
      by (by intros c s0).
    assert (forall ws r, preserves targets_client_only (set_readyState ws r))
      as Hrs by (by intros ws r s0).
    assert (forall ws, preserves targets_client_only (add_listeners ws)) as Hls
      by (by intros ws s0).
    assert (forall st, preserves targets_client_only (set_simulatorStatus st))
      as Hst by (by intros st s0).
    intros a. destruct a as [ev|data|]; cbn [perform].
    - destruct ev as [|ws|ws raw|ws|ws err|err]; cbn [deliver];
        unfold when_registered.
      + by eapply (on_listening_kept _ ok).
      + apply preserves_bind; [apply Hrs | intros _].
        apply targets_on_connection.
      + apply preserves_bind; [apply preserves_get | intros s0].
        destruct (decide (ws ∈ listeners s0)); [|apply preserves_ret].
        by eapply (on_message_kept _ ok).
      + apply preserves_bind; [apply Hrs | intros _].
        apply preserves_bind; [apply preserves_get | intros s0].
        destruct (decide (ws ∈ listeners s0)); [|apply preserves_ret].
        by eapply (on_close_kept _ ok).
      + apply preserves_bind; [apply preserves_get | intros s0].
        destruct (decide (ws ∈ listeners s0)); [|apply preserves_ret].
        by eapply (on_socket_error_kept _ ok).
      + by eapply (on_server_error_kept _ ok).
    - apply targets_send.
    - apply targets_close. }
  assert (forall l s, targets_client_only s ->
                      targets_client_only (run opts nts so l s)) as Hrun.
  { induction l as [|a l IH]; intros s Hs; [exact Hs|].
    rewrite run_cons. by apply IH, Hstep. }
  apply Hrun. constructor.
Qed.

(** ** Frames as text and as bytes *)

Lemma byte_code_of_ascii c : Buffer.byte_code (byte_of_ascii c) = code c.
Proof.
  unfold Buffer.byte_code, code. f_equal.
  apply Byte.to_of_N. symmetry. apply byte_of_ascii_via_N.
Qed.

Lemma chr_code c : JSON.chr (code c) = c.
Proof. unfold JSON.chr, code. by rewrite N2Z.id, ascii_N_embedding. Qed.

Lemma toString_ascii text :
  ascii_text text = true ->
  Buffer.toString_utf8 (list_byte_of_string text) = text.
Proof.
  unfold Buffer.toString_utf8, list_byte_of_string.
  induction text as [|c r IH]; [reflexivity|].
  cbn [ascii_text]. intros H. apply andb_true_iff in H as [Hc Hr].
  cbn [list_ascii_of_string map Buffer.decode].
  rewrite byte_code_of_ascii.
  assert ((code c <=? 127) = true) as -> by (apply Z.leb_le; apply Z.ltb_lt in Hc; lia).
  by rewrite chr_code, IH.
Qed.

(** X19: a frame of ASCII text is decoded the same way however it
    arrives: as a string, as one buffer or array buffer holding its bytes,
    or as fragments of any kind whose bytes, put together in order, are
    its bytes. *)
Theorem binary_frame_decodes_as_text text items :
  ascii_text text = true ->
  fragment_bytes items = list_byte_of_string text ->
  parseMessage (RawBuffer (list_byte_of_string text)) = parseMessage (RawString text)
  /\ parseMessage (RawArrayBuffer (list_byte_of_string text))
     = parseMessage (RawString text)
  /\ parseMessage (RawArray items) = parseMessage (RawString text).
Proof.
  intros Ha Hb. unfold parseMessage.
  assert (frame_text (RawArray items) = text) as ->.
  { cbn [frame_text]. unfold fragment_bytes in Hb.
    replace (map _ items) with (map Buffer_from items)
      by (apply map_ext; by intros []).
    by rewrite Hb, toString_ascii. }
  cbn [frame_text]. by rewrite toString_ascii.
Qed.

Lemma binary_frame_decodes_as_text_witness :
  parseMessage (RawBuffer (list_byte_of_string "not json"))
  = parseMessage (RawString "not json")
  /\ parseMessage (RawArrayBuffer (list_byte_of_string "not json"))
     = parseMessage (RawString "not json")
  /\ parseMessage (RawArray [IsBuffer (list_byte_of_string "not ");
                             NotBuffer (list_byte_of_string "json")])
     = parseMessage (RawString "not json").
Proof.
  exact (binary_frame_decodes_as_text "not json"
           [IsBuffer (list_byte_of_string "not ");
            NotBuffer (list_byte_of_string "json")] eq_refl eq_refl).
Defined.

(** ** The example's polling tick *)

Lemma send_keeps_status opts nts so data s :
  simulatorStatus (snd (send opts nts so data s)) = simulatorStatus s.
Proof.
  destruct (isClientConnected s) eqn:Hconn; [|by rewrite send_closed].
  destruct (connected_cases s Hconn) as (ws & Hc & Hr).
  rewrite (send_connected opts nts so data s ws Hc Hr).
  destruct (so ws (message_of nts data)) as [[]|t]; [reflexivity|].
  unfold mbind, M_bind, bind.
  pose proof (call_simulatorStatus (onError opts) ErrorCall (as_Error t)
                (logged (SocketSend ws (message_of nts data)) s)) as H.
  by destruct (call _ _ _ _) as [[[]|t0] s'].
Qed.

(** X20: one tick of the example's poll.  With no open client it does
    nothing.  With an open client whose socket takes every message it sends
    the status poll, and after it the aircraft-data request exactly when
    the simulator is known to be connected. *)
Theorem data_interval_tick_sends opts nts so s :
  (isClientConnected s = false ->
   Example.data_interval_tick opts nts so s = (Normal tt, s))
  /\ (forall ws,
        client s = Some ws -> readyState s !! ws = Some OPEN ->
        (forall m, so ws m = Normal tt) ->
        fst (Example.data_interval_tick opts nts so s) = Normal tt
        /\ trace (snd (Example.data_interval_tick opts nts so s))
           = (trace s
              ++ {| at_client := Some ws;
                    what := SocketSend ws
                              (message_of nts requestSimulatorStatus_envelope) |}
              :: (if isSimulatorConnected s
                  then [{| at_client := Some ws;
                           what := SocketSend ws
                                     (message_of nts requestAircraftData_envelope) |}]
                  else []))%list).
Proof.
  unfold Example.data_interval_tick, requestSimulatorStatus,
    requestAircraftData.
  split.
  - intros Hn. unfold mbind, M_bind, bind, get.
    rewrite send_closed by done.
    unfold isSimulatorConnected.
    destruct (is_true _); [|reflexivity]. by rewrite send_closed.
  - intros ws Hc Hr Hso. unfold mbind, M_bind, bind, get.
    rewrite (send_connected opts nts so _ s ws Hc Hr), Hso.
    remember (logged (SocketSend ws (message_of nts requestSimulatorStatus_envelope)) s)
      as s1 eqn:E1.
    assert (client s1 = Some ws /\ readyState s1 !! ws = Some OPEN
            /\ simulatorStatus s1 = simulatorStatus s
            /\ trace s1 = (trace s ++ [{| at_client := Some ws;
                 what := SocketSend ws
                   (message_of nts requestSimulatorStatus_envelope) |}])%list)
      as (Hc1 & Hr1 & Hs1 & Ht1).
    { subst s1. unfold logged, log. cbn. by rewrite Hc. }
    clear E1.
    unfold isSimulatorConnected. rewrite Hs1.
    destruct (is_true _); [|by split].
    rewrite (send_connected opts nts so _ s1 ws Hc1 Hr1), Hso.
    split; [reflexivity|]. unfold logged, log. cbn.
    by rewrite Hc1, Ht1, <- app_assoc.
Qed.

Lemma data_interval_tick_sends_witness :
  Example.data_interval_tick silent integer_toString accepting initial
  = (Normal tt, initial).
Proof.
  exact (proj1 (data_interval_tick_sends silent integer_toString accepting
                  initial) eq_refl).
Defined.

(** ** More on the status merge *)

Lemma coalesce_idempotent a b : coalesce a (coalesce a b) = coalesce a b.
Proof. unfold coalesce. by destruct (nullish a). Qed.

(** X21: the merge is idempotent, and a full update forgets the past: a
    [Status] frame handled twice leaves the status it left the first time,
    and when the frame gives all four fields a value other than [null] the
    resulting status does not depend on the one before. *)
Theorem status_merge_idempotent opts data s :
  truthy data = true ->
  let after := fun s0 => snd (handleMessage opts (envelope "Status" data) s0) in
  simulatorStatus (after (after s)) = simulatorStatus (after s)
  /\ (nullish (prop data "last_error") = false ->
      nullish (prop data "simulator_connected") = false ->
      nullish (prop data "simulator_loaded") = false ->
      nullish (prop data "simulator_name") = false ->
      forall s0, simulatorStatus (after s0) = simulatorStatus (after s)).
Proof.
  intros Ht. cbv zeta. split.
  - rewrite !status_after_Status by exact Ht.
    cbn [last_error simulator_connected simulator_loaded simulator_name].
    by rewrite !coalesce_idempotent.
  - intros H1 H2 H3 H4 s0. rewrite !status_after_Status by exact Ht.
    unfold coalesce. by rewrite H1, H2, H3, H4.
Qed.

Lemma status_merge_idempotent_witness :
  let after := fun s0 =>
    snd (handleMessage silent (envelope "Status" null_name_update) s0) in
  simulatorStatus (after (after flying)) = simulatorStatus (after flying).
Proof.
  exact (proj1 (status_merge_idempotent silent null_name_update flying eq_refl)).
Defined.

Lemma description_total_witness :
  exists text,
    getStatusCodeDescription "650" = Some text
    /\ (isValidStatusCode "650" = false -> text = "Unknown status code: " ++ "650")
    /\ (String.prefix "Unknown status code: " text = true
        <-> isValidStatusCode "650" = false).
Proof. exact (description_total "650"). Defined.

Lemma enum_values_distinct_witness : NOT_FOUND = NOT_FOUND.
Proof.
  exact (proj1 (proj2 enum_values_distinct) NOT_FOUND NOT_FOUND eq_refl).
Defined.
